(** * infer_yolo_v8: parameter marshalling, task run and widget apply

    A shallow embedding of [infer_yolo_v8_process.py] and
    [infer_yolo_v8_widget.py].  Python objects are records, methods are
    computations in a small state-and-exception monad over the object
    they mutate, the host's string dictionary is a [gmap string string].

    What the plugin calls but does not define (the Python built-ins
    [str], [int], [float], the host's [utils.strtobool], torch and the
    detector library, the GUI toolkit) is taken as an interface: type
    classes whose operations are parameters of every definition and of
    every general statement.  One instance of each is given ([CPython]:
    IEEE binary64 and binary32 values, decimal text as CPython reads and
    prints it, a stub detector; [Qt]: the controls of the widget); the
    definitions are run on them on explicit inputs. *)

From Stdlib Require Import ZArith String Ascii List.
From Corelib Require Import SpecFloat.
From stdpp Require Import base option strings gmap list pretty.

Local Open Scope string_scope.
Local Open Scope list_scope.
Local Open Scope Z_scope.

(** ** Exceptions and the method monad *)

(** The exceptions the modelled code can raise or let through. *)
Inductive exn : Type :=
  | KeyError (key : string)          (* param_map[key] with key absent *)
  | ValueError (arg : string)        (* int / float / strtobool on arg *)
  | DetectorError (what : string)    (* raised inside the detector library *)
  | OverflowError (what : string)    (* int(t) on an infinity *)
  | AttributeError (attr : string).  (* None.attr *)

(** A method body over an object of type [St]: it returns the object as
    the body left it, together with the value returned or the exception
    raised.  Assignments made before an exception are kept. *)
Definition Py (St A : Type) : Type := St → St * (exn + A).

Module PyM.
Definition ret {St A} (a : A) : Py St A := λ s, (s, inr a).
Definition bind {St A B} (f : A → Py St B) (c : Py St A) : Py St B :=
  λ s, match c s with
       | (s', inr a) => f a s'
       | (s', inl e) => (s', inl e)
       end.
Definition raise {St A} (e : exn) : Py St A := λ s, (s, inl e).
Definition gets {St A} (f : St → A) : Py St A := λ s, (s, inr (f s)).
Definition modify {St} (f : St → St) : Py St unit := λ s, (f s, inr tt).
(** Value of a library call that either returns or raises [e]. *)
Definition call {St A} (e : exn) (r : option A) : Py St A :=
  match r with Some a => ret a | None => raise e end.
Definition lift {St A} (r : exn + A) : Py St A :=
  match r with inr a => ret a | inl e => raise e end.
End PyM.

#[global] Instance Py_ret {St} : MRet (Py St) := @PyM.ret St.
#[global] Instance Py_bind {St} : MBind (Py St) := @PyM.bind St.

(** The object after the method, and what the method returned. *)
Definition state_after {St A} (r : St * (exn + A)) : St := r.1.
Definition returned {St A} (r : St * (exn + A)) : option A :=
  match r.2 with inr a => Some a | inl _ => None end.
Definition raised {St A} (r : St * (exn + A)) : option exn :=
  match r.2 with inl e => Some e | inr _ => None end.

(** ** Interfaces to the code the plugin calls *)

(** What the parameter object needs: Python built-ins, the host's
    [utils.strtobool] and torch's CUDA probe.  Conversions from a string
    return [None] where Python raises [ValueError]. *)
Class Platform := {
  cuda_is_available : bool;                   (* torch.cuda.is_available() *)
  pyfloat : Type;
  float_of_str : string → option pyfloat;     (* float(s) *)
  str_of_float : pyfloat → string;            (* str(x) *)
  float_of_dec : Z → Z → pyfloat;             (* the literal m * 10^e *)
  int_of_str : string → option Z;             (* int(s) *)
  str_of_int : Z → string;                    (* str(n) *)
  strtobool : string → option bool;           (* ikomia.utils.strtobool *)
}.

(** [str] of a string is the string itself; [str] of a bool is its name. *)
Definition str_of_str (s : string) : string := s.
Definition str_of_bool (b : bool) : string := if b then "True" else "False".

(** Truth value of a string in a condition: non-empty. *)
Definition truthy (s : string) : bool :=
  match s with EmptyString => false | String _ _ => true end.

Inductive torch_device : Type := Cpu | Cuda.

(** One row of the detector's [xyxy] tensor. *)
Record xyxy (T : Type) : Type := Box { bx1 : T; by1 : T; bx2 : T; by2 : T }.
Arguments Box {T}.
Arguments bx1 {T}. Arguments by1 {T}. Arguments bx2 {T}. Arguments by2 {T}.

(** [results[0]] of a prediction: the class-name mapping in its own
    order, and the three tensors the task iterates. *)
Record results (T : Type) : Type := Results {
  names : list (Z * string);
  boxes_xyxy : list (xyxy T);
  boxes_conf : list T;
  boxes_cls : list T;
}.
Arguments Results {T}.
Arguments names {T}. Arguments boxes_xyxy {T}.
Arguments boxes_conf {T}. Arguments boxes_cls {T}.

(** Keyword arguments of [model.predict], [save=False] apart. *)
Record predict_args `{Platform} : Type := PredictArgs {
  arg_imgsz : Z;
  arg_conf : pyfloat;
  arg_iou : pyfloat;
  arg_half : bool;
  arg_device : torch_device;
}.

(** Tensors and the detector library.  [YOLO] and [predict] return
    [None] where the library raises. *)
Class Detector `{Platform} := {
  tscalar : Type;                             (* an element of a tensor *)
  ts_sub : tscalar → tscalar → tscalar;       (* x2 - x1 on array elements *)
  float_of_ts : tscalar → pyfloat;            (* float(t) *)
  int_of_ts : tscalar → exn + Z;              (* int(t), or what it raises *)
  image : Type;
  yolo_model : Type;
  YOLO : string → option yolo_model;          (* YOLO(weights) *)
  predict : yolo_model → image → predict_args → option (results tscalar);
}.

(** ** The parameter object *)

Section Param.
Context `{Platform}.

Record InferYoloV8Param : Type := MkParam {
  model_name : string;
  cuda : bool;
  input_size : Z;
  conf_thres : pyfloat;
  iou_thres : pyfloat;
  update : bool;
  model_weight_file : string;
}.

(** Attribute assignments [self.f = v]. *)
Definition set_model_name (v : string) (p : InferYoloV8Param) :=
  MkParam v (cuda p) (input_size p) (conf_thres p) (iou_thres p)
          (update p) (model_weight_file p).
Definition set_cuda (v : bool) (p : InferYoloV8Param) :=
  MkParam (model_name p) v (input_size p) (conf_thres p) (iou_thres p)
          (update p) (model_weight_file p).
Definition set_input_size (v : Z) (p : InferYoloV8Param) :=
  MkParam (model_name p) (cuda p) v (conf_thres p) (iou_thres p)
          (update p) (model_weight_file p).
Definition set_conf_thres (v : pyfloat) (p : InferYoloV8Param) :=
  MkParam (model_name p) (cuda p) (input_size p) v (iou_thres p)
          (update p) (model_weight_file p).
Definition set_iou_thres (v : pyfloat) (p : InferYoloV8Param) :=
  MkParam (model_name p) (cuda p) (input_size p) (conf_thres p) v
          (update p) (model_weight_file p).
Definition set_update (v : bool) (p : InferYoloV8Param) :=
  MkParam (model_name p) (cuda p) (input_size p) (conf_thres p)
          (iou_thres p) v (model_weight_file p).
Definition set_model_weight_file (v : string) (p : InferYoloV8Param) :=
  MkParam (model_name p) (cuda p) (input_size p) (conf_thres p)
          (iou_thres p) (update p) v.

(** [InferYoloV8Param.__init__]. *)
Definition InferYoloV8Param_init : InferYoloV8Param :=
  {| model_name := "yolov8m";
     cuda := cuda_is_available;
     input_size := 640;
     conf_thres := float_of_dec 25 (-2);
     iou_thres := float_of_dec 7 (-1);
     update := false;
     model_weight_file := "" |}.

(** [param_map[key]]. *)
Definition getitem {St} (param_map : gmap string string) (key : string)
  : Py St string :=
  PyM.call (KeyError key) (param_map !! key).

(** The three conversions that can raise. *)
Definition py_strtobool {St} (s : string) : Py St bool :=
  PyM.call (ValueError s) (strtobool s).
Definition py_int {St} (s : string) : Py St Z :=
  PyM.call (ValueError s) (int_of_str s).
Definition py_float {St} (s : string) : Py St pyfloat :=
  PyM.call (ValueError s) (float_of_str s).

(** [InferYoloV8Param.set_values]. *)
Definition set_values (param_map : gmap string string)
  : Py InferYoloV8Param unit :=
  v ← getitem param_map "model_name";
  PyM.modify (set_model_name (str_of_str v));;
  v ← getitem param_map "cuda";
  b ← py_strtobool v;
  PyM.modify (set_cuda b);;
  v ← getitem param_map "input_size";
  n ← py_int v;
  PyM.modify (set_input_size n);;
  v ← getitem param_map "conf_thres";
  x ← py_float v;
  PyM.modify (set_conf_thres x);;
  v ← getitem param_map "iou_thres";
  x ← py_float v;
  PyM.modify (set_iou_thres x);;
  v ← getitem param_map "model_weight_file";
  PyM.modify (set_model_weight_file (str_of_str v));;
  PyM.modify (set_update true).

(** [InferYoloV8Param.get_values]: the dictionary, filled key by key. *)
Definition values_of (self : InferYoloV8Param) : gmap string string :=
  let param_map : gmap string string := ∅ in
  let param_map := <["model_name" := str_of_str (model_name self)]> param_map in
  let param_map := <["cuda" := str_of_bool (cuda self)]> param_map in
  let param_map := <["input_size" := str_of_int (input_size self)]> param_map in
  let param_map := <["conf_thres" := str_of_float (conf_thres self)]> param_map in
  let param_map := <["iou_thres" := str_of_float (iou_thres self)]> param_map in
  let param_map := <["update" := str_of_bool (update self)]> param_map in
  let param_map := <["model_weight_file" := str_of_str (model_weight_file self)]> param_map in
  param_map.

Definition get_values : Py InferYoloV8Param (gmap string string) :=
  PyM.gets values_of.

(** [set_values(m)] followed by [get_values()] on the same object. *)
Definition set_then_get (m : gmap string string)
  : Py InferYoloV8Param (gmap string string) :=
  set_values m;; get_values.

(** The presets offered by the widget's model list, in its order. *)
Definition combo_model_items : list string :=
  ["yolov8n"; "yolov8s"; "yolov8m"; "yolov8l"; "yolov8x"].

(** *** Vocabulary of the statements about the parameter object *)

(** The keys of the dictionary exchanged with the host, and those of
    them [set_values] subscripts. *)
Definition exchanged_keys : list string :=
  ["model_name"; "cuda"; "input_size"; "conf_thres"; "iou_thres";
   "update"; "model_weight_file"].
Definition read_keys : list string :=
  ["model_name"; "cuda"; "input_size"; "conf_thres"; "iou_thres";
   "model_weight_file"].

(** The text [v] converts to the type of the field kept under [key]. *)
Definition parsable (key v : string) : Prop :=
  if decide (key = "cuda") then is_Some (strtobool v)
  else if decide (key = "update") then is_Some (strtobool v)
  else if decide (key = "input_size") then is_Some (int_of_str v)
  else if decide (key = "conf_thres") then is_Some (float_of_str v)
  else if decide (key = "iou_thres") then is_Some (float_of_str v)
  else True.

(** One of [keys] is absent from [m], or its text does not convert. *)
Definition rejects (keys : list string) (m : gmap string string) : Prop :=
  ∃ k, k ∈ keys ∧
       (m !! k = None ∨ ∃ v, m !! k = Some v ∧ ¬ parsable k v).

(** All six subscripts and the four conversions of [set_values] go
    through, with these values. *)
Definition accepts (m : gmap string string) (v1 : string) (b : bool)
           (n : Z) (x y : pyfloat) (v6 : string) : Prop :=
  m !! "model_name" = Some v1
  ∧ (∃ s, m !! "cuda" = Some s ∧ strtobool s = Some b)
  ∧ (∃ s, m !! "input_size" = Some s ∧ int_of_str s = Some n)
  ∧ (∃ s, m !! "conf_thres" = Some s ∧ float_of_str s = Some x)
  ∧ (∃ s, m !! "iou_thres" = Some s ∧ float_of_str s = Some y)
  ∧ m !! "model_weight_file" = Some v6.

(** A text is canonical for a type when converting it and printing the
    value gives the text back. *)
Definition canonical_bool (s : string) : Prop :=
  str_of_bool <$> strtobool s = Some s.
Definition canonical_int (s : string) : Prop :=
  str_of_int <$> int_of_str s = Some s.
Definition canonical_float (s : string) : Prop :=
  str_of_float <$> float_of_str s = Some s.

(** A well-formed dictionary: exactly the exchanged keys, each typed
    entry in the canonical text of its type. *)
Definition well_formed (m : gmap string string) : Prop :=
  dom m = list_to_set exchanged_keys
  ∧ (∃ s, m !! "cuda" = Some s ∧ canonical_bool s)
  ∧ (∃ s, m !! "input_size" = Some s ∧ canonical_int s)
  ∧ (∃ s, m !! "conf_thres" = Some s ∧ canonical_float s)
  ∧ (∃ s, m !! "iou_thres" = Some s ∧ canonical_float s)
  ∧ (∃ s, m !! "update" = Some s ∧ canonical_bool s).

End Param.

(** ** The task object *)

Section Task.
Context `{Detector}.

(** One call of the host's [add_object(index, class, confidence, x, y,
    width, height)]. *)
Record detection : Type := Detection {
  det_index : Z;
  det_class : Z;
  det_conf : pyfloat;
  det_x : pyfloat;
  det_y : pyfloat;
  det_width : pyfloat;
  det_height : pyfloat;
}.

(** Calls that leave the task: into the host and into the detector
    library, in the order they are made. *)
Inductive event : Type :=
  | EvBeginTaskRun
  | EvClearData
  | EvYOLO (weights : string)
  | EvPredict (m : yolo_model) (src : image) (args : predict_args)
  | EvSetNames (classes : list string)
  | EvAddObject (d : detection)
  | EvEmitStepProgress
  | EvEndTaskRun.

(** The task: its parameter object, the attributes of [__init__], and
    the part owned by the host base class (the detection output, the
    published class names, the history of outgoing calls). *)
Record InferYoloV8 : Type := MkTask {
  param : InferYoloV8Param;
  device : torch_device;
  classes : option (list string);
  model : option yolo_model;
  half : bool;
  self_model_name : option string;
  output : list detection;
  output_names : list string;
  history : list event;
}.

Definition set_param (v : InferYoloV8Param) (t : InferYoloV8) :=
  MkTask v (device t) (classes t) (model t) (half t) (self_model_name t)
         (output t) (output_names t) (history t).
Definition set_device (v : torch_device) (t : InferYoloV8) :=
  MkTask (param t) v (classes t) (model t) (half t) (self_model_name t)
         (output t) (output_names t) (history t).
Definition set_classes (v : option (list string)) (t : InferYoloV8) :=
  MkTask (param t) (device t) v (model t) (half t) (self_model_name t)
         (output t) (output_names t) (history t).
Definition set_model (v : option yolo_model) (t : InferYoloV8) :=
  MkTask (param t) (device t) (classes t) v (half t) (self_model_name t)
         (output t) (output_names t) (history t).
Definition set_half (v : bool) (t : InferYoloV8) :=
  MkTask (param t) (device t) (classes t) (model t) v (self_model_name t)
         (output t) (output_names t) (history t).
Definition set_output (v : list detection) (t : InferYoloV8) :=
  MkTask (param t) (device t) (classes t) (model t) (half t)
         (self_model_name t) v (output_names t) (history t).
Definition set_output_names (v : list string) (t : InferYoloV8) :=
  MkTask (param t) (device t) (classes t) (model t) (half t)
         (self_model_name t) (output t) v (history t).
Definition set_history (v : list event) (t : InferYoloV8) :=
  MkTask (param t) (device t) (classes t) (model t) (half t)
         (self_model_name t) (output t) (output_names t) v.

(** [InferYoloV8.__init__(name, param)]: a fresh parameter object when
    [param] is [None], a deep copy of it otherwise. *)
Definition InferYoloV8_init (p : option InferYoloV8Param) : InferYoloV8 :=
  {| param := match p with
              | None => InferYoloV8Param_init
              | Some p => p
              end;
     device := Cpu;
     classes := None;
     model := None;
     half := false;
     self_model_name := None;
     output := [];
     output_names := [];
     history := [] |}.

Definition get_progress_steps : Z := 1.

(** *** Calls into the host *)

Definition record (e : event) : Py InferYoloV8 unit :=
  PyM.modify (λ t, set_history (history t ++ [e]) t).

Definition begin_task_run : Py InferYoloV8 unit := record EvBeginTaskRun.
Definition end_task_run : Py InferYoloV8 unit := record EvEndTaskRun.
Definition emit_step_progress : Py InferYoloV8 unit :=
  record EvEmitStepProgress.

(** [self.get_output(1).clear_data()]. *)
Definition clear_data : Py InferYoloV8 unit :=
  record EvClearData;;
  PyM.modify (set_output []).

Definition set_names (l : list string) : Py InferYoloV8 unit :=
  record (EvSetNames l);;
  PyM.modify (set_output_names l).

Definition add_object (i cls : Z) (conf x y w h : pyfloat)
  : Py InferYoloV8 unit :=
  let d := Detection i cls conf x y w h in
  record (EvAddObject d);;
  PyM.modify (λ t, set_output (output t ++ [d]) t).

(** *** Calls into the detector library *)

Definition py_YOLO (weights : string) : Py InferYoloV8 yolo_model :=
  record (EvYOLO weights);;
  PyM.call (DetectorError weights) (YOLO weights).

(** [self.model.predict(src_image, save=False, ...)]; on [None] the
    attribute access itself raises. *)
Definition py_predict (src_image : image) (args : predict_args)
  : Py InferYoloV8 (results tscalar) :=
  m ← PyM.gets model;
  match m with
  | None => PyM.raise (AttributeError "predict")
  | Some m =>
      record (EvPredict m src_image args);;
      PyM.call (DetectorError "predict") (predict m src_image args)
  end.

(** *** [InferYoloV8.run] *)

(** [enumerate(zip(boxes, confidences, class_idx))]: [zip] stops at the
    shortest of the three. *)
Definition zip3 {A B C} (a : list A) (b : list B) (c : list C)
  : list (A * B * C) := zip (zip a b) c.
Definition enumerate {A} (l : list A) : list (Z * A) :=
  imap (λ i x, (Z.of_nat i, x)) l.

Fixpoint for_each {St A} (l : list A) (body : A → Py St unit)
  : Py St unit :=
  match l with
  | [] => PyM.ret tt
  | x :: l => body x;; for_each l body
  end.

(** The condition of the [# Load model] block. *)
Definition must_load (t : InferYoloV8) : bool :=
  update (param t) || bool_decide (model t = None).

(** The body of [if param.update or self.model is None]. *)
Definition load_model : Py InferYoloV8 unit :=
  p ← PyM.gets param;
  PyM.modify (set_device (if cuda p then Cuda else Cpu));;
  PyM.modify (set_half (if cuda p then true else false));;
  (if truthy (model_weight_file p) then
     m ← py_YOLO (model_weight_file p);
     PyM.modify (set_model (Some m))
   else
     m ← py_YOLO (model_name p +:+ ".pt");
     PyM.modify (set_model (Some m)));;
  PyM.modify (λ t, set_param (set_update false (param t)) t).

(** The body of the [for] loop over the detections. *)
Definition add_detection (it : Z * (xyxy tscalar * tscalar * tscalar))
  : Py InferYoloV8 unit :=
  let '(i, (box, conf, cls)) := it in
  let '(x1, y1, x2, y2) := (bx1 box, by1 box, bx2 box, by2 box) in
  let widht := ts_sub x2 x1 in
  let height := ts_sub y2 y1 in
  c ← PyM.lift (int_of_ts cls);
  add_object i c (float_of_ts conf)
             (float_of_ts x1) (float_of_ts y1)
             (float_of_ts widht) (float_of_ts height).

(** [run]; [src_image] is what [self.get_input(0).get_image()] gives. *)
Definition run (src_image : image) : Py InferYoloV8 unit :=
  begin_task_run;;
  clear_data;;
  load ← PyM.gets must_load;
  (if load : bool then load_model else PyM.ret tt);;
  p ← PyM.gets param;
  hf ← PyM.gets half;
  dev ← PyM.gets device;
  res ← py_predict src_image
        {| arg_imgsz := input_size p; arg_conf := conf_thres p;
           arg_iou := iou_thres p; arg_half := hf; arg_device := dev |};
  PyM.modify (set_classes (Some (names res).*2));;
  cl ← PyM.gets classes;
  set_names (default [] cl);;
  let boxes := boxes_xyxy res in
  let confidences := boxes_conf res in
  let class_idx := boxes_cls res in
  for_each (enumerate (zip3 boxes confidences class_idx)) add_detection;;
  emit_step_progress;;
  end_task_run.

End Task.

(** ** The widget *)

Section Widget.
Context `{Platform}.

(** The widget: the parameter object it is bound to, what its five
    controls currently show, and the [emit_apply] signals sent. *)
Record InferYoloV8Widget : Type := MkWidget {
  parameters : InferYoloV8Param;
  combo_model : string;           (* combo_model.currentText() *)
  check_cuda : bool;              (* check_cuda.isChecked() *)
  spin_input_size : Z;            (* spin_input_size.value() *)
  spin_conf_thres : pyfloat;      (* spin_conf_thres.value() *)
  spin_iou_thres : pyfloat;       (* spin_iou_thres.value() *)
  applied : list InferYoloV8Param;
}.

Definition set_parameters (v : InferYoloV8Param) (w : InferYoloV8Widget) :=
  MkWidget v (combo_model w) (check_cuda w) (spin_input_size w)
           (spin_conf_thres w) (spin_iou_thres w) (applied w).

(** On the parameter object the widget holds. *)
Definition on_parameters (f : InferYoloV8Param → InferYoloV8Param)
  : Py InferYoloV8Widget unit :=
  PyM.modify (λ w, set_parameters (f (parameters w)) w).

(** [self.emit_apply(self.parameters)]. *)
Definition emit_apply : Py InferYoloV8Widget unit :=
  PyM.modify (λ w, MkWidget (parameters w) (combo_model w) (check_cuda w)
                      (spin_input_size w) (spin_conf_thres w)
                      (spin_iou_thres w) (applied w ++ [parameters w])).

(** [InferYoloV8Widget.on_apply]. *)
Definition on_apply : Py InferYoloV8Widget unit :=
  v ← PyM.gets combo_model; on_parameters (set_model_name v);;
  v ← PyM.gets check_cuda; on_parameters (set_cuda v);;
  v ← PyM.gets spin_input_size; on_parameters (set_input_size v);;
  v ← PyM.gets spin_conf_thres; on_parameters (set_conf_thres v);;
  v ← PyM.gets spin_iou_thres; on_parameters (set_iou_thres v);;
  on_parameters (set_update true);;
  emit_apply.

End Widget.

(** ** Vocabulary of the statements about the task *)

Section TaskSpec.
Context `{Detector}.

(** The detections appended, and the weights loaded, by a sequence of
    outgoing calls. *)
Definition added (evs : list event) : list detection :=
  omap (λ e, match e with EvAddObject d => Some d | _ => None end) evs.
Definition loads (evs : list event) : list string :=
  omap (λ e, match e with EvYOLO w => Some w | _ => None end) evs.
Definition predictions (evs : list event) : list yolo_model :=
  omap (λ e, match e with EvPredict m _ _ => Some m | _ => None end) evs.

(** The models obtained by the loads that did not raise. *)
Definition loaded (evs : list event) : list yolo_model :=
  omap (λ e, match e with EvYOLO w => YOLO w | _ => None end) evs.

(** The outgoing calls made by [run] on [t]: what it adds to the
    history. *)
Definition events_of_run (src_image : image) (t : InferYoloV8)
  : list event :=
  drop (length (history t)) (history (state_after (run src_image t))).

(** The weights [run] hands to [YOLO] when it loads. *)
Definition weights_of (p : InferYoloV8Param) : string :=
  if truthy (model_weight_file p) then model_weight_file p
  else model_name p +:+ ".pt".

(** The model [run] predicts with, and the arguments it passes. *)
Definition model_used (t : InferYoloV8) : option yolo_model :=
  if must_load t then YOLO (weights_of (param t)) else model t.
Definition args_used (t : InferYoloV8) : predict_args :=
  let p := param t in
  {| arg_imgsz := input_size p;
     arg_conf := conf_thres p;
     arg_iou := iou_thres p;
     arg_half := if must_load t then cuda p else half t;
     arg_device := if must_load t then (if cuda p then Cuda else Cpu)
                   else device t |}.

(** What the detector answers to the call [run] makes on [t]. *)
Definition prediction (src_image : image) (t : InferYoloV8)
  : option (results tscalar) :=
  m ← model_used t; predict m src_image (args_used t).

(** The detection expected for the triple at position [i], given the
    integer [c] its class converts to: index [i], class [c], the
    confidence, x = x1, y = y1, width = x2 - x1, height = y2 - y1. *)
Definition expected_detection (i : nat) (c : Z)
           (box : xyxy tscalar) (conf : tscalar) : detection :=
  {| det_index := Z.of_nat i;
     det_class := c;
     det_conf := float_of_ts conf;
     det_x := float_of_ts (bx1 box);
     det_y := float_of_ts (by1 box);
     det_width := float_of_ts (ts_sub (bx2 box) (bx1 box));
     det_height := float_of_ts (ts_sub (by2 box) (by1 box)) |}.

(** The results object holding a sequence of triples. *)
Definition results_of (nm : list (Z * string))
           (triples : list (xyxy tscalar * tscalar * tscalar))
  : results tscalar :=
  {| names := nm;
     boxes_xyxy := triples.*1.*1;
     boxes_conf := triples.*1.*2;
     boxes_cls := triples.*2 |}.

(** The loop over the detections, in closed form: the detections added
    before the first class that does not convert, and what is raised
    there. *)
Fixpoint converted (its : list (Z * (xyxy tscalar * tscalar * tscalar)))
  : list detection * option exn :=
  match its with
  | [] => ([], None)
  | (i, (box, conf, cls)) :: its =>
      match int_of_ts cls with
      | inl e => ([], Some e)
      | inr c =>
          let d := Detection i c (float_of_ts conf)
                     (float_of_ts (bx1 box)) (float_of_ts (by1 box))
                     (float_of_ts (ts_sub (bx2 box) (bx1 box)))
                     (float_of_ts (ts_sub (by2 box) (by1 box))) in
          (d :: (converted its).1, (converted its).2)
      end
  end.

(** The loop on the tensors of a results object. *)
Definition detections_of (res : results tscalar)
  : list detection * option exn :=
  converted (enumerate (zip3 (boxes_xyxy res) (boxes_conf res)
                             (boxes_cls res))).

(** [run] in closed form: its outgoing calls, the object it leaves and
    its outcome, by cases on what the detector library answers.  First
    the calls that follow the load block. *)
Definition after_load (src_image : image) (t : InferYoloV8) : list event :=
  match model_used t with
  | None => []
  | Some m =>
      EvPredict m src_image (args_used t)
      :: match predict m src_image (args_used t) with
         | None => []
         | Some res =>
             EvSetNames (names res).*2
             :: map EvAddObject (detections_of res).1
             ++ match (detections_of res).2 with
                | None => [EvEmitStepProgress; EvEndTaskRun]
                | Some _ => []
                end
         end
  end.

Definition run_trace (src_image : image) (t : InferYoloV8) : list event :=
  [EvBeginTaskRun; EvClearData]
  ++ (if must_load t then [EvYOLO (weights_of (param t))] else [])
  ++ after_load src_image t.

Definition run_result (src_image : image) (t : InferYoloV8) : exn + unit :=
  match model_used t with
  | None => inl (if must_load t then DetectorError (weights_of (param t))
                 else AttributeError "predict")
  | Some m =>
      match predict m src_image (args_used t) with
      | None => inl (DetectorError "predict")
      | Some res =>
          match (detections_of res).2 with
          | None => inr tt
          | Some e => inl e
          end
      end
  end.

Definition run_state (src_image : image) (t : InferYoloV8) : InferYoloV8 :=
  {| param := if must_load t then
                match model_used t with
                | Some _ => set_update false (param t)
                | None => param t
                end
              else param t;
     device := arg_device (args_used t);
     classes := match prediction src_image t with
                | Some res => Some (names res).*2
                | None => classes t
                end;
     model := match model_used t with
              | Some m => Some m
              | None => model t
              end;
     half := arg_half (args_used t);
     self_model_name := self_model_name t;
     output := match prediction src_image t with
               | Some res => (detections_of res).1
               | None => []
               end;
     output_names := match prediction src_image t with
                     | Some res => (names res).*2
                     | None => output_names t
                     end;
     history := history t ++ run_trace src_image t |}.

End TaskSpec.

(** ** A concrete run-time: CPython on ASCII text, IEEE floats *)

(** The instance used to evaluate the model on explicit inputs.  Floats
    are IEEE values ([spec_float]): binary64 for Python's [float],
    binary32 for tensor elements.  [float(s)] is the correctly rounded
    value of the decimal text, [str(x)] the shortest decimal text that
    reads back as [x]; both follow CPython on ASCII input. *)
Module CPython.

Definition prec64 : Z := 53.
Definition emax64 : Z := 1024.
Definition prec32 : Z := 24.
Definition emax32 : Z := 128.

(** *** Characters *)

Definition code (c : ascii) : Z := Z.of_N (N_of_ascii c).

(** What [str.strip()] and the number parsers treat as blank. *)
Definition is_space (c : ascii) : bool :=
  let n := code c in
  ((9 <=? n) && (n <=? 13)) || ((28 <=? n) && (n <=? 32)).

Definition digit_val (c : ascii) : option Z :=
  let n := code c in
  if (48 <=? n) && (n <=? 57) then Some (n - 48) else None.

Definition is_digit (c : ascii) : bool := bool_decide (is_Some (digit_val c)).

Definition lower (c : ascii) : ascii :=
  let n := code c in
  if (65 <=? n) && (n <=? 90) then ascii_of_N (Z.to_N (n + 32)) else c.

Definition strip (l : list ascii) : list ascii :=
  let drop := fix drop (l : list ascii) : list ascii :=
    match l with
    | c :: l' => if is_space c then drop l' else l
    | [] => []
    end in
  rev (drop (rev (drop l))).

(** Underscores are accepted between two digits only; they are removed
    before the number is read. *)
Fixpoint drop_underscores (prev_digit : bool) (l : list ascii)
  : option (list ascii) :=
  match l with
  | [] => Some []
  | c :: l' =>
      if bool_decide (c = "_"%char) then
        match l' with
        | d :: _ =>
            if prev_digit && is_digit d then drop_underscores false l'
            else None
        | [] => None
        end
      else cons c <$> drop_underscores (is_digit c) l'
  end.

(** A maximal run of digits: its value, its length, what follows. *)
Fixpoint digits (l : list ascii) (acc : Z) (n : Z)
  : Z * Z * list ascii :=
  match l with
  | c :: l' =>
      match digit_val c with
      | Some d => digits l' (10 * acc + d) (n + 1)
      | None => (acc, n, l)
      end
  | [] => (acc, n, [])
  end.

Definition sign (l : list ascii) : bool * list ascii :=
  match l with
  | c :: l' =>
      if bool_decide (c = "-"%char) then (true, l')
      else if bool_decide (c = "+"%char) then (false, l')
      else (false, l)
  | [] => (false, [])
  end.

(** *** [int(s)] and [str(n)] *)

Definition read_int (s : string) : option Z :=
  l ← drop_underscores false (strip (list_ascii_of_string s));
  let '(neg, l) := sign l in
  let '(v, n, rest) := digits l 0 0 in
  if (0 <? n) && bool_decide (rest = []) then
    Some (if neg then - v else v)
  else None.

Definition repr_int (n : Z) : string := pretty n.

(** *** [utils.strtobool] *)

Definition utils_strtobool (val : string) : option bool :=
  let val := string_of_list_ascii (map lower (list_ascii_of_string val)) in
  if bool_decide (val ∈ ["y"; "yes"; "t"; "true"; "on"; "1"]) then Some true
  else if bool_decide (val ∈ ["n"; "no"; "f"; "false"; "off"; "0"])
  then Some false
  else None.

(** *** Decimal to binary *)

(** The float nearest to [(-1)^neg * m * 10^e], ties to even. *)
Definition of_decimal (prec emax : Z) (neg : bool) (m e : Z) : spec_float :=
  match m with
  | Zpos p =>
      if 0 <=? e then binary_round prec emax neg (Z.to_pos (m * 10 ^ e)) 0
      else SFdiv prec emax (S754_finite neg p 0)
                 (S754_finite false (Z.to_pos (10 ^ (- e))) 0)
  | _ => S754_zero neg
  end.

(** Number of decimal digits of a positive integer. *)
Definition ndigits (m : Z) : Z := Z.of_nat (String.length (pretty m)).

(** The same, without computing powers of ten that can only give an
    infinity or a zero. *)
Definition of_decimal_guarded (prec emax : Z) (neg : bool) (m e : Z)
  : spec_float :=
  if m <=? 0 then S754_zero neg
  else if 400 <? ndigits m + e then S754_infinity neg
  else if ndigits m + e <? -400 then S754_zero neg
  else of_decimal prec emax neg m e.

(** *** [float(s)] *)

Definition lowered (l : list ascii) : string :=
  string_of_list_ascii (map lower l).

Definition exponent (l : list ascii) : option Z :=
  match l with
  | [] => Some 0
  | c :: l' =>
      if bool_decide (lower c = "e"%char) then
        let '(neg, l') := sign l' in
        let '(v, n, rest) := digits l' 0 0 in
        if (0 <? n) && bool_decide (rest = []) then
          Some (if neg then - v else v)
        else None
      else None
  end.

Definition read_float (s : string) : option spec_float :=
  l ← drop_underscores false (strip (list_ascii_of_string s));
  let '(neg, l) := sign l in
  if bool_decide (lowered l ∈ ["inf"; "infinity"]) then
    Some (S754_infinity neg)
  else if bool_decide (lowered l = "nan") then Some S754_nan
  else
    let '(ip, n1, rest) := digits l 0 0 in
    let '(m, n2, rest) :=
      match rest with
      | c :: rest' =>
          if bool_decide (c = "."%char) then digits rest' ip 0
          else (ip, 0, rest)
      | [] => (ip, 0, [])
      end in
    if 0 <? n1 + n2 then
      ex ← exponent rest;
      Some (of_decimal_guarded prec64 emax64 neg m (ex - n2))
    else None.

(** *** Binary to shortest decimal *)

Definition sf_eqb (x y : spec_float) : bool :=
  match x, y with
  | S754_zero s, S754_zero s' => bool_decide (s = s')
  | S754_infinity s, S754_infinity s' => bool_decide (s = s')
  | S754_nan, S754_nan => true
  | S754_finite s m e, S754_finite s' m' e' =>
      bool_decide (s = s') && (m =? m')%positive && (e =? e')
  | _, _ => false
  end.

(** [10^k <= num / den]. *)
Definition pow10_le (num den k : Z) : bool :=
  if 0 <=? k then 10 ^ k * den <=? num else den <=? num * 10 ^ (- k).

Fixpoint lower_to (fuel : nat) (num den k : Z) : Z :=
  match fuel with
  | O => k
  | S fuel => if pow10_le num den k then k else lower_to fuel num den (k - 1)
  end.
Fixpoint raise_to (fuel : nat) (num den k : Z) : Z :=
  match fuel with
  | O => k
  | S fuel =>
      if pow10_le num den (k + 1) then raise_to fuel num den (k + 1) else k
  end.

(** [floor (log10 (num / den))], from the bit lengths and two checks. *)
Definition log10_floor (num den : Z) : Z :=
  let k0 := (Z.log2 num - Z.log2 den) * 30103 / 100000 in
  raise_to 4 num den (lower_to 4 num den k0).

(** The decimal [d * 10^k] with [n] digits that reads back as the
    float, if there is one: the one nearest to [num / den]. *)
Definition candidate (prec emax : Z) (x : spec_float) (num den : Z)
           (lg : Z) (n : Z) : option (Z * Z) :=
  let k := lg - n + 1 in
  let '(a, b) := if 0 <=? k then (num, den * 10 ^ k)
                 else (num * 10 ^ (- k), den) in
  let lo := a / b in
  let r := a mod b in
  let hi := lo + 1 in
  let back d := sf_eqb (of_decimal prec emax false d k) x in
  if r =? 0 then Some (lo, k)
  else
    match back lo, back hi with
    | true, false => Some (lo, k)
    | false, true => Some (hi, k)
    | true, true =>
        match 2 * r ?= b with
        | Lt => Some (lo, k)
        | Gt => Some (hi, k)
        | Eq => Some (if Z.even lo then lo else hi, k)
        end
    | false, false => None
    end.

Fixpoint shortest (fuel : nat) (prec emax : Z) (x : spec_float)
         (num den lg n : Z) : Z * Z :=
  match fuel with
  | O => (0, 0)
  | S fuel =>
      match candidate prec emax x num den lg n with
      | Some r => r
      | None => shortest fuel prec emax x num den lg (n + 1)
      end
  end.

Fixpoint strip_zeros (fuel : nat) (d k : Z) : Z * Z :=
  match fuel with
  | O => (d, k)
  | S fuel =>
      if (d mod 10 =? 0) && negb (d =? 0) then strip_zeros fuel (d / 10) (k + 1)
      else (d, k)
  end.

(** Digits and decimal exponent of the shortest text of [m * 2^e]. *)
Definition shortest_digits (prec emax : Z) (m : positive) (e : Z) : Z * Z :=
  let '(num, den) := if 0 <=? e then (Zpos m * 2 ^ e, 1)
                     else (Zpos m, 2 ^ (- e)) in
  let lg := log10_floor num den in
  let '(d, k) := shortest 800 prec emax (S754_finite false m e) num den lg 1 in
  strip_zeros 800 d k.

Definition zeros (n : Z) : string :=
  string_of_list_ascii (replicate (Z.to_nat n) "0"%char).

(** The layout of [repr]: plain notation when the decimal point falls
    within [-4 < decpt <= 16], exponent notation otherwise. *)
Definition layout (ds : string) (k : Z) : string :=
  let nd := Z.of_nat (String.length ds) in
  let decpt := nd + k in
  if (decpt <=? -4) || (16 <? decpt) then
    let ex := decpt - 1 in
    let mant := match ds with
                | String c EmptyString => ds
                | String c rest => String c ("." +:+ rest)
                | EmptyString => ds
                end in
    let exs := pretty (Z.abs ex) in
    mant +:+ "e" +:+ (if ex <? 0 then "-" else "+")
         +:+ (if Z.abs ex <? 10 then "0" else "") +:+ exs
  else if decpt <=? 0 then "0." +:+ zeros (- decpt) +:+ ds
  else if nd <=? decpt then ds +:+ zeros (decpt - nd) +:+ ".0"
  else substring 0 (Z.to_nat decpt) ds +:+ "."
       +:+ substring (Z.to_nat decpt) (Z.to_nat (nd - decpt)) ds.

(** *** [str(x)] *)

Definition repr_float (x : spec_float) : string :=
  match x with
  | S754_zero s => if s then "-0.0" else "0.0"
  | S754_infinity s => if s then "-inf" else "inf"
  | S754_nan => "nan"
  | S754_finite s m e =>
      let '(d, k) := shortest_digits prec64 emax64 m e in
      (if s then "-" else "") +:+ layout (pretty d) k
  end.

(** *** Tensor elements *)

(** [float(t)]: the same value, in the wider format. *)
Definition widen (x : spec_float) : spec_float :=
  match x with
  | S754_finite s m e => binary_round prec64 emax64 s m e
  | _ => x
  end.

(** [int(t)]: truncation; not defined on [nan] and the infinities. *)
Definition trunc (x : spec_float) : exn + Z :=
  match x with
  | S754_zero _ => inr 0
  | S754_finite s m e =>
      let a := if 0 <=? e then Zpos m * 2 ^ e else Zpos m / 2 ^ (- e) in
      inr (if s then - a else a)
  | S754_infinity _ => inl (OverflowError "cannot convert float infinity to integer")
  | S754_nan => inl (ValueError "cannot convert float NaN to integer")
  end.

(** A tensor element written in decimal. *)
Definition f32 (m e : Z) : spec_float :=
  of_decimal prec32 emax32 (m <? 0) (Z.abs m) e.

(** *** A stub detector *)

(** Weights load when the path names a [.pt] file; a prediction gives
    back the synthetic results carried by the image. *)
Definition stub_YOLO (weights : string) : option string :=
  match rev (list_ascii_of_string weights) with
  | "t"%char :: "p"%char :: "."%char :: _ => Some weights
  | _ => None
  end.

Definition platform (avail : bool) : Platform :=
  {| cuda_is_available := avail;
     pyfloat := spec_float;
     float_of_str := read_float;
     str_of_float := repr_float;
     float_of_dec m e := of_decimal prec64 emax64 (m <? 0) (Z.abs m) e;
     int_of_str := read_int;
     str_of_int := repr_int;
     strtobool := utils_strtobool |}.

Definition stub (avail : bool) : @Detector (platform avail) :=
  @Build_Detector (platform avail)
    spec_float                      (* tscalar *)
    (SFsub prec32 emax32)           (* ts_sub *)
    widen                           (* float_of_ts *)
    trunc                           (* int_of_ts *)
    (results spec_float)            (* image *)
    string                          (* yolo_model *)
    stub_YOLO                       (* YOLO *)
    (λ _ src _, Some src).          (* predict *)

End CPython.

(** ** Sample inputs *)

Module Sample.

(** A machine without CUDA, with the stub detector. *)
Definition P : Platform := CPython.platform false.
Definition D : @Detector P := CPython.stub false.

(** A freshly constructed parameter object. *)
Definition fresh : @InferYoloV8Param P := @InferYoloV8Param_init P.

(** The dictionary [get_values()] gives for it. *)
Definition defaults : gmap string string :=
  list_to_map
    [("model_name", "yolov8m"); ("cuda", "False"); ("input_size", "640");
     ("conf_thres", "0.25"); ("iou_thres", "0.7"); ("update", "False");
     ("model_weight_file", "")].

(** The same without the [update] entry. *)
Definition no_update : gmap string string := delete "update" defaults.

(** A dictionary as a host could send it: same values, other texts. *)
Definition loose : gmap string string :=
  list_to_map
    [("model_name", "yolov8m"); ("cuda", "0"); ("input_size", " 0640 ");
     ("conf_thres", "2.5e-1"); ("iou_thres", ".70"); ("update", "True");
     ("model_weight_file", "")].

(** The synthetic answer of the stub detector: two detections. *)
Definition class_names : list (Z * string) := [(0, "person"); (1, "car")].
Definition triples : list (xyxy spec_float * spec_float * spec_float) :=
  [ (Box (CPython.f32 105 (-1)) (CPython.f32 20 0)
         (CPython.f32 11025 (-2)) (CPython.f32 220 0),
     CPython.f32 9 (-1), CPython.f32 1 0);
    (Box (CPython.f32 0 0) (CPython.f32 1 0)
         (CPython.f32 3 0) (CPython.f32 5 0),
     CPython.f32 5 (-1), CPython.f32 0 0) ].
Definition synthetic : @image P D := @results_of P D class_names triples.

(** A new task, the task after one run, and that task once another
    preset was chosen and the dirty flag set. *)
Definition task0 : @InferYoloV8 P D := @InferYoloV8_init P D None.
Definition task1 : @InferYoloV8 P D :=
  state_after (@run P D synthetic task0).
Definition task1_renamed : @InferYoloV8 P D :=
  @set_param P D
    (@set_update P true (@set_model_name P "yolov8n" (@param P D task1)))
    task1.

(** A task whose weight file does not load with the stub. *)
Definition task_missing : @InferYoloV8 P D :=
  @set_param P D (@set_model_weight_file P "weights.onnx" fresh) task0.

(** A detection as the host shows it. *)
Definition shown (d : @detection P)
  : Z * Z * string * string * string * string * string :=
  (@det_index P d, @det_class P d, CPython.repr_float (@det_conf P d),
   CPython.repr_float (@det_x P d), CPython.repr_float (@det_y P d),
   CPython.repr_float (@det_width P d),
   CPython.repr_float (@det_height P d)).

End Sample.

(** ** Further vocabulary: progress, end of run *)

Section TaskSpecMore.
Context `{Detector}.

(** How many times a sequence of outgoing calls steps the host's
    progress bar, and how many times it ends the task run. *)
Definition progress_steps (evs : list event) : Z :=
  Z.of_nat (length (omap (λ e, match e with
                               | EvEmitStepProgress => Some tt
                               | _ => None
                               end) evs)).
Definition task_ends (evs : list event) : Z :=
  Z.of_nat (length (omap (λ e, match e with
                               | EvEndTaskRun => Some tt
                               | _ => None
                               end) evs)).

(** The class names published by a sequence of outgoing calls. *)
Definition published (evs : list event) : list (list string) :=
  omap (λ e, match e with EvSetNames l => Some l | _ => None end) evs.

End TaskSpecMore.

(** ** The widget's constructor *)

(** What the constructor gets from the GUI toolkit: for each control it
    builds, what the control shows once built. *)
Class Gui `{Platform} := {
  (* isChecked() of pyqtutils.append_check(_, _, checked) *)
  append_check : bool → bool;
  (* currentText() of a combo after addItem(i) for each item, in order,
     and setCurrentText(text) *)
  combo_current_text : list string → string → string;
  (* value() of pyqtutils.append_spin(_, _, value) *)
  append_spin : Z → Z;
  (* value() of pyqtutils.append_double_spin(_, _, value, min=0., max=1.,
     step=0.01, decimals=2) *)
  append_double_spin : pyfloat → pyfloat;
}.

Section WidgetInit.
Context `{Gui}.

(** The widget as built: its state, and whether the GPU check box can
    be changed by the user. *)
Record form : Type := Form {
  form_widget : InferYoloV8Widget;
  check_cuda_enabled : bool;
}.

(** [InferYoloV8Widget.__init__(param, parent)]. *)
Definition InferYoloV8Widget_init (param : option InferYoloV8Param) : form :=
  let parameters := match param with
                    | None => InferYoloV8Param_init
                    | Some param => param
                    end in
  let check_cuda := append_check (cuda parameters && cuda_is_available) in
  let enabled := cuda_is_available in
  let combo_model :=
    combo_current_text combo_model_items (model_name parameters) in
  let spin_input_size := append_spin (input_size parameters) in
  let spin_conf_thres := append_double_spin (conf_thres parameters) in
  let spin_iou_thres := append_double_spin (iou_thres parameters) in
  {| form_widget := MkWidget parameters combo_model check_cuda
                             spin_input_size spin_conf_thres
                             spin_iou_thres [];
     check_cuda_enabled := enabled |}.

(** Building the widget on a parameter object and applying at once. *)
Definition open_and_apply (param : option InferYoloV8Param)
  : InferYoloV8Param :=
  parameters (state_after (on_apply (form_widget
                                       (InferYoloV8Widget_init param)))).

End WidgetInit.

(** ** The controls as Qt builds them *)

Module Qt.

(** A non-editable combo shows the item asked for when it is in the
    list, and its first item otherwise. *)
Definition current_text (items : list string) (text : string) : string :=
  if bool_decide (text ∈ items) then text else default "" (head items).

(** A spin box of range 0 .. 2^31 - 1 clamps the value it is given. *)
Definition spin (value : Z) : Z := Z.max 0 (Z.min value 2147483647).

(** A double spin box of range 0 .. 1 with two decimals rounds the
    value it is given to two decimals, ties to even, and clamps it. *)
Definition double_spin (value : spec_float) : spec_float :=
  match value with
  | S754_finite false m e =>
      let '(a, b) := if 0 <=? e then (Zpos m * 2 ^ e * 100, 1)
                     else (Zpos m * 100, 2 ^ (- e)) in
      let q := a / b in
      let r := a mod b in
      let n := match 2 * r ?= b with
               | Lt => q
               | Gt => q + 1
               | Eq => if Z.even q then q else q + 1
               end in
      if 100 <=? n then CPython.of_decimal CPython.prec64 CPython.emax64
                          false 1 0
      else CPython.of_decimal CPython.prec64 CPython.emax64 false n (-2)
  | S754_infinity false =>
      CPython.of_decimal CPython.prec64 CPython.emax64 false 1 0
  | _ => S754_zero false
  end.

Definition gui (avail : bool) : @Gui (CPython.platform avail) :=
  @Build_Gui (CPython.platform avail)
    (λ checked, checked)            (* append_check *)
    current_text                    (* combo_current_text *)
    spin                            (* append_spin *)
    double_spin.                    (* append_double_spin *)

End Qt.

(** ** Further sample inputs *)

Module Cases.

Definition G : @Gui Sample.P := Qt.gui false.

(** A mapping whose GPU entry does not convert. *)
Definition bad_cuda : gmap string string :=
  <["model_name" := "yolov8x"]> (<["cuda" := "maybe"]> Sample.defaults).

(** A detector answer whose three tensors differ in length. *)
Definition ragged : @image Sample.P Sample.D :=
  Results Sample.class_names
    [Box (CPython.f32 1 0) (CPython.f32 2 0) (CPython.f32 4 0)
         (CPython.f32 8 0);
     Box (CPython.f32 0 0) (CPython.f32 0 0) (CPython.f32 1 0)
         (CPython.f32 1 0);
     Box (CPython.f32 5 0) (CPython.f32 5 0) (CPython.f32 6 0)
         (CPython.f32 7 0)]
    [CPython.f32 9 (-1); CPython.f32 8 (-1)]
    [CPython.f32 1 0; CPython.f32 0 0; CPython.f32 1 0; CPython.f32 0 0].

(** The task after one run, with another preset named but the dirty
    flag left clear. *)
Definition task1_stale : @InferYoloV8 Sample.P Sample.D :=
  @set_param Sample.P Sample.D
    (@set_model_name Sample.P "yolov8n" (@param Sample.P Sample.D Sample.task1))
    Sample.task1.

(** A widget bound to parameters with a custom weight file, showing
    another preset. *)
Definition custom_widget : @InferYoloV8Widget Sample.P :=
  @MkWidget Sample.P
    (@set_model_weight_file Sample.P "custom.pt" Sample.fresh)
    "yolov8x" false 320
    (CPython.of_decimal CPython.prec64 CPython.emax64 false 5 (-1))
    (CPython.of_decimal CPython.prec64 CPython.emax64 false 45 (-2))
    [].

(** A parameter object as a user could have set it. *)
Definition tuned : @InferYoloV8Param Sample.P :=
  @MkParam Sample.P "yolov8s" false 320
    (CPython.of_decimal CPython.prec64 CPython.emax64 false 5 (-1))
    (CPython.of_decimal CPython.prec64 CPython.emax64 false 45 (-2))
    false "".

End Cases.

(** * Proof automation *)

(** Unfolds the monad's operations so that a method body computes. *)
Ltac py_unfold :=
  unfold mbind, mret, Py_bind, Py_ret, PyM.bind, PyM.ret, PyM.raise,
    PyM.gets, PyM.modify, PyM.call, PyM.lift in *.

(** Closes the case where [set_values] raises [e] at the key [k],
    the lookups and conversions before it being in the context. *)
Ltac raises_at e k :=
  right; exists e;
  unfold set_values, getitem, py_strtobool, py_int, py_float; py_unfold;
  repeat (match goal with
          | Hx : ?a = _ |- context [?a] => rewrite Hx; simpl
          end);
  repeat split; exists k; (split; [set_solver |]).

Ltac unparsable s :=
  right; exists s; (split; [done |]);
  unfold parsable; simpl;
  match goal with Hx : _ = None |- _ => rewrite Hx end;
  by intros [? ?].

(** Decides a closed statement by evaluating its decision procedure. *)
Ltac by_evaluation := apply (bool_decide_unpack _); vm_compute; exact I.

(** * Facts about the parameter object *)

Section ParamFacts.
Context `{Platform}.

Implicit Types (m : gmap string string) (p : InferYoloV8Param).

Lemma set_values_accepts m p v1 b n x y v6 :
  accepts m v1 b n x y v6 →
  set_values m p = (MkParam v1 b n x y true v6, inr tt).
Proof.
  intros (H1 & (s2 & H2 & C2) & (s3 & H3 & C3) & (s4 & H4 & C4)
          & (s5 & H5 & C5) & H6).
  unfold set_values, getitem, py_strtobool, py_int, py_float.
  py_unfold. rewrite H1, H2, H3, H4, H5, H6. simpl.
  rewrite C2, C3, C4, C5. reflexivity.
Qed.

(** Either [set_values] returns, and then everything was accepted, or
    it raises, the dirty flag is as before, and some read key is
    missing or does not convert. *)
Lemma set_values_cases m p :
  (∃ v1 b n x y v6, accepts m v1 b n x y v6
                    ∧ set_values m p = (MkParam v1 b n x y true v6, inr tt))
  ∨ (∃ e, raised (set_values m p) = Some e
          ∧ returned (set_values m p) = None
          ∧ update (state_after (set_values m p)) = update p
          ∧ rejects read_keys m).
Proof.
  destruct (m !! "model_name") as [v1|] eqn:H1;
    [| raises_at (KeyError "model_name") "model_name"; by left].
  destruct (m !! "cuda") as [s2|] eqn:H2;
    [| raises_at (KeyError "cuda") "cuda"; by left].
  destruct (strtobool s2) as [b|] eqn:C2;
    [| raises_at (ValueError s2) "cuda"; unparsable s2].
  destruct (m !! "input_size") as [s3|] eqn:H3;
    [| raises_at (KeyError "input_size") "input_size"; by left].
  destruct (int_of_str s3) as [n|] eqn:C3;
    [| raises_at (ValueError s3) "input_size"; unparsable s3].
  destruct (m !! "conf_thres") as [s4|] eqn:H4;
    [| raises_at (KeyError "conf_thres") "conf_thres"; by left].
  destruct (float_of_str s4) as [x|] eqn:C4;
    [| raises_at (ValueError s4) "conf_thres"; unparsable s4].
  destruct (m !! "iou_thres") as [s5|] eqn:H5;
    [| raises_at (KeyError "iou_thres") "iou_thres"; by left].
  destruct (float_of_str s5) as [y|] eqn:C5;
    [| raises_at (ValueError s5) "iou_thres"; unparsable s5].
  destruct (m !! "model_weight_file") as [v6|] eqn:H6;
    [| raises_at (KeyError "model_weight_file") "model_weight_file";
       by left].
  left. exists v1, b, n, x, y, v6.
  assert (accepts m v1 b n x y v6) as Hacc by (unfold accepts; naive_solver).
  split; [done | by apply set_values_accepts].
Qed.

(** Nothing accepted is rejected. *)
Lemma accepts_not_rejects m v1 b n x y v6 :
  accepts m v1 b n x y v6 → ¬ rejects read_keys m.
Proof.
  intros (H1 & (s2 & H2 & C2) & (s3 & H3 & C3) & (s4 & H4 & C4)
          & (s5 & H5 & C5) & H6) (k & Hk & Hbad).
  unfold read_keys in Hk.
  repeat (apply elem_of_cons in Hk as [-> | Hk]);
    [ .. | by apply elem_of_nil in Hk ];
    destruct Hbad as [Hn | (v & Hv & Hp)]; try congruence;
    apply Hp; unfold parsable; simpl; try done;
    simplify_eq; eauto.
Qed.

End ParamFacts.

Section ParamClaims.
Context `{Platform}.

Implicit Types (m : gmap string string) (p : InferYoloV8Param).

(** The [update] entry of the mapping is never subscripted. *)
Lemma set_values_insert_update m p v :
  set_values (<["update" := v]> m) p = set_values m p.
Proof.
  unfold set_values, getitem. by rewrite !lookup_insert_ne.
Qed.

Lemma set_values_delete_update m p :
  set_values (delete "update" m) p = set_values m p.
Proof.
  unfold set_values, getitem. by rewrite !lookup_delete_ne.
Qed.

Lemma canonical_bool_inv s :
  canonical_bool s → ∃ b, strtobool s = Some b ∧ str_of_bool b = s.
Proof.
  unfold canonical_bool. destruct (strtobool s) as [b|]; [|done].
  intros [= Hs]. eauto.
Qed.

Lemma canonical_int_inv s :
  canonical_int s → ∃ n, int_of_str s = Some n ∧ str_of_int n = s.
Proof.
  unfold canonical_int. destruct (int_of_str s) as [n|]; [|done].
  intros [= Hs]. eauto.
Qed.

Lemma canonical_float_inv s :
  canonical_float s → ∃ x, float_of_str s = Some x ∧ str_of_float x = s.
Proof.
  unfold canonical_float. destruct (float_of_str s) as [x|]; [|done].
  intros [= Hs]. eauto.
Qed.

(** C5. Default construction: the model name is the medium preset
    "yolov8m" (the middle item of the widget's list), the input size
    640, the confidence threshold 0.25, the IoU threshold 0.7, the GPU
    flag set exactly when CUDA is available, the dirty flag False and
    the weight-file path empty. *)
Theorem default_construction :
  let p := InferYoloV8Param_init in
  model_name p = "yolov8m"
  ∧ combo_model_items !! 2%nat = Some (model_name p)
  ∧ input_size p = 640
  ∧ conf_thres p = float_of_dec 25 (-2)
  ∧ iou_thres p = float_of_dec 7 (-1)
  ∧ (cuda p = true ↔ cuda_is_available = true)
  ∧ update p = false
  ∧ model_weight_file p = "".
Proof. by repeat split. Qed.

(** C3 (amended). [set_values] raises exactly when one of the six keys
    it reads (model_name, cuda, input_size, conf_thres, iou_thres,
    model_weight_file) is absent or holds a text that does not convert
    to the field's type; the [update] key is not among them.  When it
    returns, the object holds the converted entries and a set dirty
    flag, whatever it held before. *)
Theorem set_values_raises_iff m p :
  (is_Some (raised (set_values m p)) ↔ rejects read_keys m)
  ∧ (returned (set_values m p) = Some tt ↔ ¬ rejects read_keys m)
  ∧ (returned (set_values m p) = Some tt →
     ∃ v1 b n x y v6,
       accepts m v1 b n x y v6
       ∧ state_after (set_values m p) = MkParam v1 b n x y true v6).
Proof.
  destruct (set_values_cases m p)
    as [(v1 & b & n & x & y & v6 & Hacc & Heq) | (e & He & Hr & _ & Hrej)].
  - pose proof (accepts_not_rejects _ _ _ _ _ _ _ Hacc) as Hnr.
    rewrite Heq. unfold raised, returned, state_after; simpl.
    split_and!.
    + split; [by intros [? ?] | done].
    + done.
    + intros _. by exists v1, b, n, x, y, v6.
  - rewrite He, Hr. split_and!.
    + split; [done | by eexists].
    + split; [done | by intros []].
    + done.
Qed.

(** C9 (amended). When [set_values] returns, the dirty flag is True;
    when it raises, the flag is what it was.  In both cases the outcome
    is the same whatever the mapping holds under [update], present or
    not. *)
Theorem set_values_dirty_flag m p :
  (returned (set_values m p) = Some tt →
   update (state_after (set_values m p)) = true)
  ∧ (is_Some (raised (set_values m p)) →
     update (state_after (set_values m p)) = update p)
  ∧ (∀ v, set_values (<["update" := v]> m) p = set_values m p)
  ∧ set_values (delete "update" m) p = set_values m p.
Proof.
  split_and!.
  - destruct (set_values_cases m p)
      as [(v1 & b & n & x & y & v6 & _ & Heq) | (e & _ & Hr & _)].
    + by rewrite Heq.
    + by rewrite Hr.
  - destruct (set_values_cases m p)
      as [(v1 & b & n & x & y & v6 & _ & Heq) | (e & _ & _ & Hu & _)].
    + rewrite Heq. by intros [? ?].
    + done.
  - intros v. apply set_values_insert_update.
  - apply set_values_delete_update.
Qed.

(** C1 (amended). For a well-formed dictionary (exactly the seven
    keys, typed entries in canonical text), [set_values] followed by
    [get_values] gives the dictionary with its [update] entry replaced
    by "True"; it gives the dictionary itself exactly when that entry is
    already "True". *)
Theorem set_then_get_well_formed m p :
  well_formed m →
  returned (set_then_get m p) = Some (<["update" := "True"]> m)
  ∧ (returned (set_then_get m p) = Some m ↔ m !! "update" = Some "True").
Proof.
  intros (Hdom & (s2 & H2 & C2) & (s3 & H3 & C3) & (s4 & H4 & C4)
          & (s5 & H5 & C5) & (s6 & H6 & _)).
  apply canonical_bool_inv in C2 as (b & C2 & P2).
  apply canonical_int_inv in C3 as (n & C3 & P3).
  apply canonical_float_inv in C4 as (x & C4 & P4).
  apply canonical_float_inv in C5 as (y & C5 & P5).
  assert (is_Some (m !! "model_name")) as [v1 H1].
  { apply elem_of_dom. rewrite Hdom. unfold exchanged_keys. set_solver. }
  assert (is_Some (m !! "model_weight_file")) as [v7 H7].
  { apply elem_of_dom. rewrite Hdom. unfold exchanged_keys. set_solver. }
  assert (returned (set_then_get m p) = Some (<["update" := "True"]> m))
    as Hres.
  { unfold set_then_get. py_unfold.
    rewrite (set_values_accepts m p v1 b n x y v7)
      by (unfold accepts; naive_solver).
    unfold get_values, returned, values_of, str_of_str; py_unfold; simpl.
    f_equal. rewrite P2, P3, P4, P5.
    apply map_eq. intros k.
    destruct (decide (k ∈ dom m)) as [Hin | Hout].
    - rewrite Hdom in Hin. unfold exchanged_keys in Hin.
      repeat (rewrite list_to_set_cons in Hin;
              apply elem_of_union in Hin
                as [->%elem_of_singleton | Hin]);
        [ .. | by rewrite list_to_set_nil in Hin ];
        by simplify_map_eq.
    - assert (m !! k = None) as Hk by by apply not_elem_of_dom.
      rewrite Hdom in Hout. unfold exchanged_keys in Hout.
      rewrite !lookup_insert_ne; [by rewrite lookup_empty |
        intros <-; apply Hout; set_solver ..]. }
  split; [done |]. rewrite Hres. split.
  - intros [= Heq]. rewrite <- Heq. by rewrite lookup_insert_eq.
  - intros Hu. f_equal. by apply insert_id.
Qed.

End ParamClaims.

(** * Facts about the task *)

Section TaskFacts.
Context `{Detector}.

Implicit Types (t : InferYoloV8) (src : image).

Lemma for_each_add_detection its t :
  for_each its add_detection t
  = (MkTask (param t) (device t) (classes t) (model t) (half t)
            (self_model_name t) (output t ++ (converted its).1)
            (output_names t)
            (history t ++ map EvAddObject (converted its).1),
     match (converted its).2 with None => inr tt | Some e => inl e end).
Proof.
  revert t. induction its as [|[i [[box conf] cls]] its IH]; intros t.
  - destruct t; simpl. py_unfold. by rewrite !app_nil_r.
  - simpl. unfold add_detection, add_object, record. py_unfold.
    destruct (int_of_ts cls) as [e|c]; simpl.
    + destruct t; simpl. by rewrite !app_nil_r.
    + rewrite IH. simpl. by rewrite <- !app_assoc.
Qed.

Lemma must_load_false t :
  must_load t = false → update (param t) = false ∧ ∃ m, model t = Some m.
Proof.
  unfold must_load. intros [Hu Hm]%orb_false_iff. split; [done |].
  apply bool_decide_eq_false in Hm. destruct (model t); [eauto | done].
Qed.

Lemma run_closed_form src t :
  run src t = (run_state src t, run_result src t).
Proof.
  destruct t as [p dev cl mdl hf smn out nms hist].
  unfold run_state, run_result, run_trace, after_load, prediction,
    model_used, args_used.
  unfold run, begin_task_run, clear_data, load_model, py_predict, py_YOLO,
    set_names, emit_step_progress, end_task_run, record, must_load,
    weights_of.
  py_unfold. simpl.
  destruct (update p) eqn:Hu, mdl as [m0|]; simpl;
    destruct (truthy (model_weight_file p)); simpl;
    repeat (match goal with
            | |- context [YOLO ?w] => destruct (YOLO w) as [m|]; simpl
            end);
    destruct (cuda p); simpl;
    repeat (match goal with
            | |- context [predict ?m ?s ?a] =>
                destruct (predict m s a) as [res|]; simpl
            end);
    rewrite ?for_each_add_detection; unfold detections_of; simpl;
    repeat (match goal with
            | |- context [(converted ?l).2] =>
                destruct (converted l).2; simpl
            end);
    rewrite <- ?app_assoc, ?app_nil_r; try reflexivity.
Qed.
End TaskFacts.

Section TaskClaims.
Context `{Detector}.

Implicit Types (t : InferYoloV8) (src : image).

Lemma run_history src t :
  history (state_after (run src t)) = history t ++ run_trace src t.
Proof. by rewrite run_closed_form. Qed.

Lemma events_of_run_trace src t : events_of_run src t = run_trace src t.
Proof.
  unfold events_of_run. rewrite run_history. apply drop_app_length.
Qed.

Lemma added_app evs1 evs2 : added (evs1 ++ evs2) = added evs1 ++ added evs2.
Proof. apply omap_app. Qed.

Lemma added_map_add ds : added (map EvAddObject ds) = ds.
Proof. induction ds as [|d ds IH]; simpl; [done | by rewrite IH]. Qed.

Lemma loads_app evs1 evs2 : loads (evs1 ++ evs2) = loads evs1 ++ loads evs2.
Proof. apply omap_app. Qed.

Lemma loads_map_add ds : loads (map EvAddObject ds) = [].
Proof. induction ds as [|d ds IH]; simpl; [done | by rewrite IH]. Qed.

Lemma loads_after_load src t : loads (after_load src t) = [].
Proof.
  unfold after_load. destruct (model_used t); [|done]. simpl.
  destruct (predict _ _ _); [|done]. simpl.
  rewrite loads_app, loads_map_add. by destruct (detections_of _).2.
Qed.

Lemma added_after_load src t :
  added (after_load src t) = output (state_after (run src t)).
Proof.
  rewrite run_closed_form.
  unfold state_after, run_state, after_load, prediction; simpl.
  destruct (model_used t); simpl; [|done].
  destruct (predict _ _ _); simpl; [|done].
  rewrite added_app, added_map_add.
  destruct (detections_of _).2; simpl; by rewrite app_nil_r.
Qed.

Lemma run_trace_split src t :
  run_trace src t
  = [EvBeginTaskRun; EvClearData]
    ++ (if must_load t then [EvYOLO (weights_of (param t))] else [])
    ++ after_load src t.
Proof. reflexivity. Qed.


Lemma must_load_iff t :
  must_load t = true ↔ update (param t) = true ∨ model t = None.
Proof.
  unfold must_load. rewrite orb_true_iff, bool_decide_eq_true. tauto.
Qed.

Lemma loads_run src t :
  loads (events_of_run src t)
  = if must_load t then [weights_of (param t)] else [].
Proof.
  rewrite events_of_run_trace, run_trace_split, !loads_app,
    loads_after_load.
  by destruct (must_load t).
Qed.

(** After a run that had a model to predict with, nothing asks for a
    load. *)
Lemma must_load_after_run src t :
  is_Some (model_used t) → must_load (state_after (run src t)) = false.
Proof.
  intros [m Hm]. rewrite run_closed_form.
  unfold state_after, run_state, must_load; simpl. rewrite Hm.
  destruct (update (param t) || bool_decide (model t = None)) eqn:Hl;
    simpl; [done |].
  apply orb_false_iff in Hl as [-> _]. done.
Qed.

Lemma returned_model_used src t :
  returned (run src t) = Some tt → is_Some (model_used t).
Proof.
  rewrite run_closed_form. unfold returned, run_result; simpl.
  destruct (model_used t); [eauto | done].
Qed.

(** C7. Every run clears the detection output first: its outgoing
    calls start with begin_task_run and clear_data, every detection is
    appended after them, and the output left by the run is exactly the
    detections appended during it, whatever the output held before. *)
Theorem run_clears_output src t :
  ∃ rest,
    events_of_run src t = EvBeginTaskRun :: EvClearData :: rest
    ∧ history (state_after (run src t)) = history t ++ events_of_run src t
    ∧ output (state_after (run src t)) = added rest
    ∧ ∀ out, output (state_after (run src (set_output out t)))
             = output (state_after (run src t)).
Proof.
  exists ((if must_load t then [EvYOLO (weights_of (param t))] else [])
          ++ after_load src t).
  split_and!.
  - by rewrite events_of_run_trace, run_trace_split.
  - by rewrite events_of_run_trace, run_history.
  - rewrite added_app, added_after_load. by destruct (must_load t).
  - intros out. by rewrite !run_closed_form.
Qed.

Lemma loaded_le_loads evs : (length (loaded evs) ≤ length (loads evs))%nat.
Proof.
  induction evs as [|e evs IH]; [done |].
  destruct e; simpl; try done.
  destruct (YOLO weights); simpl; lia.
Qed.

Lemma loaded_app evs1 evs2 :
  loaded (evs1 ++ evs2) = loaded evs1 ++ loaded evs2.
Proof. apply omap_app. Qed.

Lemma loaded_nil evs : loads evs = [] → loaded evs = [].
Proof.
  intros Hl. pose proof (loaded_le_loads evs) as Hle. rewrite Hl in Hle.
  destruct (loaded evs); [done | simpl in Hle; lia].
Qed.

Lemma loaded_run src t :
  loaded (events_of_run src t)
  = if must_load t then option_list (YOLO (weights_of (param t))) else [].
Proof.
  rewrite events_of_run_trace, run_trace_split, !loaded_app.
  rewrite (loaded_nil (after_load src t)) by apply loads_after_load.
  destruct (must_load t); simpl; [|done].
  destruct (YOLO _); by rewrite ?app_nil_r.
Qed.

(** The attribute access [self.model.predict] never finds [None]: a run
    without a model to predict with has raised in its load. *)
Lemma run_without_model src t :
  model_used t = None →
  raised (run src t) = Some (DetectorError (weights_of (param t))).
Proof.
  intros Hm. rewrite run_closed_form. unfold raised, run_result; simpl.
  rewrite Hm. destruct (must_load t) eqn:Hl; [done |].
  destruct (must_load_false t Hl) as [_ [m Hm']].
  unfold model_used in Hm. rewrite Hl in Hm. congruence.
Qed.

(** C4. A run calls the detector library for a model exactly when the
    dirty flag is set or no model is loaded, and then once.  Over two
    runs in a row with nothing changed in between at most one model is
    loaded; when the first run had its model the second calls for none,
    and starting without a model the two runs call for one exactly once.
    With the dirty flag set (as after a change of model_name or
    model_weight_file) the run calls for a model once, before it
    predicts; when that load succeeds the flag is cleared, the new model
    is kept and the one prediction of the run is made with it. *)
Theorem reload_on_change src t :
  (loads (events_of_run src t) ≠ [] ↔
     update (param t) = true ∨ model t = None)
  ∧ (length (loads (events_of_run src t)) ≤ 1)%nat
  ∧ (∀ src',
       let t' := state_after (run src t) in
       (length (loaded (events_of_run src t ++ events_of_run src' t'))
        ≤ 1)%nat
       ∧ (is_Some (model_used t) →
          loads (events_of_run src' t') = []
          ∧ (model t = None →
             length (loads (events_of_run src t ++ events_of_run src' t'))
             = 1%nat)))
  ∧ (update (param t) = true →
     ∃ rest,
       events_of_run src t
       = EvBeginTaskRun :: EvClearData
         :: EvYOLO (weights_of (param t)) :: rest
       ∧ loads rest = []
       ∧ ∀ m, YOLO (weights_of (param t)) = Some m →
              update (param (state_after (run src t))) = false
              ∧ model (state_after (run src t)) = Some m
              ∧ predictions rest = [m]).
Proof.
  split_and!.
  - rewrite loads_run, <- must_load_iff. by destruct (must_load t).
  - rewrite loads_run. destruct (must_load t); simpl; lia.
  - intros src'. simpl.
    assert (is_Some (model_used t) →
            loads (events_of_run src' (state_after (run src t))) = [])
      as Hsecond.
    { intros Hm. by rewrite loads_run, must_load_after_run. }
    split.
    + rewrite loaded_app, length_app.
      destruct (model_used t) as [m|] eqn:Hm.
      * rewrite (loaded_nil (events_of_run src' _)) by eauto.
        pose proof (loaded_le_loads (events_of_run src t)) as Hle.
        rewrite loads_run in Hle. simpl.
        destruct (must_load t); simpl in Hle; lia.
      * rewrite loaded_run. unfold model_used in Hm.
        destruct (must_load t) eqn:Hl.
        -- rewrite Hm. simpl.
           pose proof (loaded_le_loads
                         (events_of_run src' (state_after (run src t))))
             as Hle.
           rewrite loads_run in Hle.
           destruct (must_load (state_after (run src t)));
             simpl in Hle; lia.
        -- apply must_load_false in Hl as [_ [m Hm']]. congruence.
    + intros Hm. split; [by apply Hsecond |].
      intros Hnone. rewrite loads_app, Hsecond, app_nil_r, loads_run by done.
      assert (must_load t = true) as -> by (apply must_load_iff; by right).
      done.
  - intros Hu.
    assert (must_load t = true) as Hl by (apply must_load_iff; by left).
    exists (after_load src t). split_and!.
    + by rewrite events_of_run_trace, run_trace_split, Hl.
    + apply loads_after_load.
    + intros m Hm. rewrite run_closed_form.
      unfold state_after, run_state, after_load, model_used; simpl.
      rewrite Hl, Hm. split_and!; [done | done |]. simpl.
      destruct (predict _ _ _); [|done]. simpl.
      unfold predictions. rewrite omap_app.
      assert (∀ ds, omap (λ e, match e with
                               | EvPredict m _ _ => Some m
                               | _ => None
                               end) (map EvAddObject ds) = []) as ->.
      { induction ds as [|d ds IH]; [done | by simpl]. }
      by destruct (detections_of _).2.
Qed.

(** The one call of [predict] a run makes: with the model it has after
    the load block, on its image, with [args_used]; the answer to that
    call is [prediction]. *)
Lemma run_predict_call src t m src' args :
  EvPredict m src' args ∈ events_of_run src t ↔
  model_used t = Some m ∧ src' = src ∧ args = args_used t.
Proof.
  rewrite events_of_run_trace, run_trace_split. unfold after_load. split.
  - intros Hin.
    apply elem_of_app in Hin as [Hin|Hin].
    { apply elem_of_cons in Hin as [|Hin]; [done |].
      apply elem_of_cons in Hin as [|Hin]; [done |].
      by apply elem_of_nil in Hin. }
    apply elem_of_app in Hin as [Hin|Hin].
    { destruct (must_load t); [|by apply elem_of_nil in Hin].
      apply elem_of_cons in Hin as [|Hin]; [done |].
      by apply elem_of_nil in Hin. }
    destruct (model_used t) as [m'|]; [|by apply elem_of_nil in Hin].
    apply elem_of_cons in Hin as [[= -> -> ->]|Hin]; [done |].
    destruct (predict _ _ _) as [res|]; [|by apply elem_of_nil in Hin].
    apply elem_of_cons in Hin as [|Hin]; [done |].
    apply elem_of_app in Hin as [Hin|Hin].
    + apply list_elem_of_fmap in Hin as (d & Hd & _). done.
    + destruct (detections_of res).2; [by apply elem_of_nil in Hin |].
      apply elem_of_cons in Hin as [|Hin]; [done |].
      apply elem_of_cons in Hin as [|Hin]; [done |].
      by apply elem_of_nil in Hin.
  - intros (-> & -> & ->).
    rewrite !elem_of_app. right. right. apply elem_of_cons. by left.
Qed.

Lemma run_predict_answer src t m :
  model_used t = Some m →
  prediction src t = predict m src (args_used t).
Proof. intros Hm. unfold prediction. by rewrite Hm. Qed.

(** C6. When the run reloads (dirty flag set or no model yet), the
    device is the GPU exactly when the GPU flag is set and the CPU
    otherwise, half precision is on exactly when the flag is set, the
    weights asked for are the weight-file path when it is not empty and
    the model name followed by ".pt" when it is, the model obtained is
    the one kept, and the prediction is made with that device and
    precision. *)
Theorem reload_selects_device_and_weights src t :
  update (param t) = true ∨ model t = None →
  let t' := state_after (run src t) in
  (device t' = Cuda ↔ cuda (param t) = true)
  ∧ (device t' = Cpu ↔ cuda (param t) = false)
  ∧ (half t' = true ↔ cuda (param t) = true)
  ∧ (model_weight_file (param t) ≠ "" →
     loads (events_of_run src t) = [model_weight_file (param t)])
  ∧ (model_weight_file (param t) = "" →
     loads (events_of_run src t) = [model_name (param t) +:+ ".pt"])
  ∧ (∀ w m, loads (events_of_run src t) = [w] → YOLO w = Some m →
            model t' = Some m)
  ∧ (∀ m src' args, EvPredict m src' args ∈ events_of_run src t →
       arg_half args = half t' ∧ arg_device args = device t').
Proof.
  intros Hl%must_load_iff. simpl.
  rewrite loads_run, Hl, run_closed_form.
  unfold state_after, run_state, args_used, weights_of; simpl.
  rewrite Hl. split_and!.
  - by destruct (cuda (param t)).
  - by destruct (cuda (param t)).
  - by destruct (cuda (param t)).
  - intros Hne. by destruct (model_weight_file (param t)).
  - by intros ->.
  - intros w m [= <-] Hw. unfold model_used, weights_of.
    by rewrite Hl, Hw.
  - intros m src' args (_ & _ & ->)%run_predict_call.
    unfold args_used; simpl. by rewrite Hl.
Qed.

Lemma zip3_unzip (triples : list (xyxy tscalar * tscalar * tscalar)) :
  zip3 triples.*1.*1 triples.*1.*2 triples.*2 = triples.
Proof.
  unfold zip3. induction triples as [|[[box conf] cls] l IH]; [done |].
  simpl. f_equal. exact IH.
Qed.

(** When every class converts, the loop converts every triple, at its
    position. *)
Lemma converted_all (l : list (xyxy tscalar * tscalar * tscalar))
      (f : nat → nat) :
  Forall (λ tr, ∃ c, int_of_ts tr.2 = inr c) l →
  let r := converted (imap (λ i x, (Z.of_nat (f i), x)) l) in
  r.2 = None
  ∧ length r.1 = length l
  ∧ ∀ i box conf cls,
      l !! i = Some (box, conf, cls) →
      ∃ c, int_of_ts cls = inr c
           ∧ r.1 !! i
             = Some (Detection (Z.of_nat (f i)) c (float_of_ts conf)
                       (float_of_ts (bx1 box)) (float_of_ts (by1 box))
                       (float_of_ts (ts_sub (bx2 box) (bx1 box)))
                       (float_of_ts (ts_sub (by2 box) (by1 box)))).
Proof.
  revert f. induction l as [|[[box conf] cls] l IH]; intros f Hall.
  - simpl. split_and!; [done | done |]. intros i ? ? ? Hi. done.
  - apply Forall_cons in Hall as [[c Hc] Hall]. simpl in Hc.
    destruct (IH (f ∘ S) Hall) as (IH1 & IH2 & IH3).
    simpl. rewrite Hc. simpl. split_and!.
    + exact IH1.
    + f_equal. exact IH2.
    + intros [|i] box' conf' cls' Hi; simpl in Hi.
      * injection Hi as -> -> ->. exists c. by split.
      * exact (IH3 i box' conf' cls' Hi).
Qed.

(** C2. When the detector answers the run with a sequence of triples
    whose classes convert to integers, the run returns and its output
    holds one detection per triple, in the detector's order: the one at
    position i has index i, the class converted to an integer, the
    confidence converted to a float, x = x1, y = y1, width = x2 - x1 and
    height = y2 - y1, each converted to a float. *)
Theorem run_output_mapping src t nm triples :
  prediction src t = Some (results_of nm triples) →
  Forall (λ tr, ∃ c, int_of_ts tr.2 = inr c) triples →
  let t' := state_after (run src t) in
  returned (run src t) = Some tt
  ∧ length (output t') = length triples
  ∧ ∀ (i : nat) box conf cls,
      triples !! i = Some (box, conf, cls) →
      ∃ c, int_of_ts cls = inr c
           ∧ output t' !! i = Some (expected_detection i c box conf).
Proof.
  intros Hpred Hall. simpl.
  destruct (converted_all triples id Hall) as (Hnone & Hlen & Hnth).
  rewrite run_closed_form.
  unfold state_after, returned, run_state, run_result; simpl.
  rewrite Hpred. unfold prediction in Hpred.
  destruct (model_used t) as [m|]; [|done]. simpl in Hpred.
  rewrite Hpred. unfold detections_of, results_of; simpl.
  rewrite zip3_unzip. unfold enumerate.
  change (imap (λ (i : nat) x, (Z.of_nat i, x)) triples)
    with (imap (λ (i : nat) x, (Z.of_nat (id i), x)) triples).
  rewrite Hnone. split_and!; [done | done |].
  intros i box conf cls Hi.
  destruct (Hnth i box conf cls Hi) as (c & Hc & Hd).
  exists c. split; [done |]. exact Hd.
Qed.

End TaskClaims.

(** * Facts about the widget *)

Section WidgetClaims.
Context `{Platform}.

Implicit Types (w : InferYoloV8Widget).

(** C8. The apply action returns; afterwards the bound parameter
    object holds the model name, GPU flag, input size, confidence and
    IoU thresholds shown by the controls and a set dirty flag, the
    controls are as they were, and one signal was sent to the host,
    last, carrying the parameters so updated. *)
Theorem on_apply_copies_controls w :
  let w' := state_after (on_apply w) in
  returned (on_apply w) = Some tt
  ∧ model_name (parameters w') = combo_model w
  ∧ cuda (parameters w') = check_cuda w
  ∧ input_size (parameters w') = spin_input_size w
  ∧ conf_thres (parameters w') = spin_conf_thres w
  ∧ iou_thres (parameters w') = spin_iou_thres w
  ∧ update (parameters w') = true
  ∧ applied w' = applied w ++ [parameters w']
  ∧ (combo_model w', check_cuda w', spin_input_size w',
     spin_conf_thres w', spin_iou_thres w')
    = (combo_model w, check_cuda w, spin_input_size w,
       spin_conf_thres w, spin_iou_thres w).
Proof. destruct w as [p ? ? ? ? ? ?]. by repeat split. Qed.

(** C10. The apply action leaves the weight-file path of the
    parameter object as it was: the object afterwards is made of the
    five control values, a set dirty flag and the former path. *)
Theorem on_apply_keeps_weight_file w :
  let p' := parameters (state_after (on_apply w)) in
  model_weight_file p' = model_weight_file (parameters w)
  ∧ p' = MkParam (combo_model w) (check_cuda w) (spin_input_size w)
                 (spin_conf_thres w) (spin_iou_thres w) true
                 (model_weight_file (parameters w)).
Proof. destruct w as [p ? ? ? ? ? ?]. by split. Qed.

End WidgetClaims.

(** * The sample inputs *)

Example fresh_values : @values_of Sample.P Sample.fresh = Sample.defaults.
Proof. by_evaluation. Qed.

(** C1, counterexample.  The dictionary of a fresh parameter object is
    well formed, and comes back with "True" under [update] where it had
    "False". *)
Lemma roundtrip_changes_update :
  @well_formed Sample.P Sample.defaults
  ∧ ¬ (returned (@set_then_get Sample.P Sample.defaults Sample.fresh)
       = Some Sample.defaults).
Proof.
  split.
  - unfold well_formed. split_and!; [by_evaluation | ..].
    + exists "False". by vm_compute.
    + exists "640". by vm_compute.
    + exists "0.25". by vm_compute.
    + exists "0.7". by vm_compute.
    + exists "False". by vm_compute.
  - by_evaluation.
Qed.

(** The amended round trip, on the dictionary of a fresh object. *)
Lemma set_then_get_well_formed_witness :
  @well_formed Sample.P Sample.defaults
  ∧ returned (@set_then_get Sample.P Sample.defaults Sample.fresh)
    = Some (<["update" := "True"]> Sample.defaults).
Proof.
  assert (@well_formed Sample.P Sample.defaults) as Hwf.
  { unfold well_formed. split_and!; [by_evaluation | ..].
    - exists "False". by vm_compute.
    - exists "640". by vm_compute.
    - exists "0.25". by vm_compute.
    - exists "0.7". by vm_compute.
    - exists "False". by vm_compute. }
  split; [exact Hwf |].
  exact (proj1 (@set_then_get_well_formed Sample.P Sample.defaults
                  Sample.fresh Hwf)).
Defined.

(** Texts that convert but are not canonical come back rewritten. *)
Example loose_comes_back_canonical :
  returned (@set_then_get Sample.P Sample.loose Sample.fresh)
  = Some (<["update" := "True"]> Sample.defaults).
Proof. by_evaluation. Qed.

(** C3, counterexample.  Without the [update] key one of the seven
    exchanged keys is absent, and [set_values] returns all the same. *)
Lemma set_values_without_update :
  Sample.no_update !! "update" = None
  ∧ returned (@set_values Sample.P Sample.no_update Sample.fresh) = Some tt
  ∧ ¬ (is_Some (raised (@set_values Sample.P Sample.no_update Sample.fresh))
       ↔ @rejects Sample.P exchanged_keys Sample.no_update).
Proof.
  split_and!; [by vm_compute | by vm_compute |].
  intros [_ Hfail].
  assert (@rejects Sample.P exchanged_keys Sample.no_update) as Hrej.
  { exists "update". split; [unfold exchanged_keys; set_solver |].
    left. by vm_compute. }
  apply Hfail in Hrej as [e He]. vm_compute in He. discriminate He.
Qed.

(** [set_values] on the dictionary of a fresh object returns and leaves
    the converted entries. *)
Lemma set_values_raises_iff_witness :
  returned (@set_values Sample.P Sample.defaults Sample.fresh) = Some tt
  ∧ ∃ v1 b n x y v6,
      @accepts Sample.P Sample.defaults v1 b n x y v6
      ∧ state_after (@set_values Sample.P Sample.defaults Sample.fresh)
        = @MkParam Sample.P v1 b n x y true v6.
Proof.
  assert (returned (@set_values Sample.P Sample.defaults Sample.fresh)
          = Some tt) as Hret by (by vm_compute).
  split; [exact Hret |].
  exact (proj2 (proj2 (@set_values_raises_iff Sample.P Sample.defaults
                         Sample.fresh)) Hret).
Defined.

(** C9, counterexample.  On the empty mapping [set_values] raises at its
    first subscript and the dirty flag of a fresh object stays False. *)
Lemma set_values_empty_keeps_flag :
  raised (@set_values Sample.P ∅ Sample.fresh) = Some (KeyError "model_name")
  ∧ ¬ (update (state_after (@set_values Sample.P ∅ Sample.fresh)) = true).
Proof. split; [by vm_compute | by vm_compute]. Qed.

(** [set_values] on the dictionary of a fresh object sets the flag. *)
Lemma set_values_dirty_flag_witness :
  returned (@set_values Sample.P Sample.defaults Sample.fresh) = Some tt
  ∧ update (state_after (@set_values Sample.P Sample.defaults Sample.fresh))
    = true.
Proof.
  assert (returned (@set_values Sample.P Sample.defaults Sample.fresh)
          = Some tt) as Hret by (by vm_compute).
  split; [exact Hret |].
  exact (proj1 (@set_values_dirty_flag Sample.P Sample.defaults
                  Sample.fresh) Hret).
Defined.

(** The stub detector's two detections as the host receives them. *)
Example synthetic_detections :
  map Sample.shown
      (output (state_after (@run Sample.P Sample.D Sample.synthetic
                                 Sample.task0)))
  = [(0, 1, "0.8999999761581421", "10.5", "20.0", "99.75", "200.0");
     (1, 0, "0.5", "0.0", "1.0", "3.0", "4.0")].
Proof. by vm_compute. Qed.

(** The output mapping on the stub detector's answer. *)
Lemma run_output_mapping_witness :
  @prediction Sample.P Sample.D Sample.synthetic Sample.task0
  = Some (@results_of Sample.P Sample.D Sample.class_names Sample.triples)
  ∧ returned (@run Sample.P Sample.D Sample.synthetic Sample.task0) = Some tt
  ∧ length (output (state_after (@run Sample.P Sample.D Sample.synthetic
                                      Sample.task0)))
    = length Sample.triples.
Proof.
  assert (@prediction Sample.P Sample.D Sample.synthetic Sample.task0
          = Some (@results_of Sample.P Sample.D Sample.class_names
                    Sample.triples)) as Hpred by (by vm_compute).
  assert (Forall (λ tr, ∃ c, @int_of_ts Sample.P Sample.D tr.2 = inr c)
                 Sample.triples) as Hall.
  { unfold Sample.triples. repeat constructor; eexists; by vm_compute. }
  split; [exact Hpred |].
  destruct (@run_output_mapping Sample.P Sample.D Sample.synthetic
              Sample.task0 Sample.class_names Sample.triples Hpred Hall)
    as (Hret & Hlen & _).
  split; [exact Hret | exact Hlen].
Defined.

(** A new task loads in its first run and not in its second; once the
    preset is changed and the flag set, the next run loads the new
    preset's weights, once, before anything else. *)
Lemma reload_on_change_witness :
  (is_Some (@model_used Sample.P Sample.D Sample.task0)
   ∧ loads (@events_of_run Sample.P Sample.D Sample.synthetic Sample.task1)
     = [])
  ∧ (update (param Sample.task1_renamed) = true
     ∧ ∃ rest,
         @events_of_run Sample.P Sample.D Sample.synthetic
           Sample.task1_renamed
         = EvBeginTaskRun :: EvClearData :: EvYOLO "yolov8n.pt" :: rest
         ∧ loads rest = []).
Proof.
  split.
  - assert (is_Some (@model_used Sample.P Sample.D Sample.task0)) as Hm
      by (eexists; by vm_compute).
    split; [exact Hm |].
    destruct (@reload_on_change Sample.P Sample.D Sample.synthetic
                Sample.task0) as (_ & _ & Htwice & _).
    exact (proj1 (proj2 (Htwice Sample.synthetic) Hm)).
  - assert (update (param Sample.task1_renamed) = true) as Hu
      by (by vm_compute).
    split; [exact Hu |].
    destruct (@reload_on_change Sample.P Sample.D Sample.synthetic
                Sample.task1_renamed) as (_ & _ & _ & Hdirty).
    destruct (Hdirty Hu) as (rest & Hev & Hl & _).
    exists rest. split; [exact Hev | exact Hl].
Defined.

(** A load that raises leaves the task without a model and the output
    empty. *)
Example failed_load :
  let r := @run Sample.P Sample.D Sample.synthetic Sample.task_missing in
  raised r = Some (DetectorError "weights.onnx")
  ∧ model (state_after r) = None
  ∧ map Sample.shown (output (state_after r)) = []
  ∧ loads (@events_of_run Sample.P Sample.D Sample.synthetic
             Sample.task_missing) = ["weights.onnx"].
Proof. by vm_compute. Qed.

(** The reload of a new task on a machine without CUDA: the CPU, and the
    default preset's weights. *)
Lemma reload_selects_device_and_weights_witness :
  (update (param Sample.task0) = true ∨ model Sample.task0 = None)
  ∧ device (state_after (@run Sample.P Sample.D Sample.synthetic
                              Sample.task0)) = Cpu
  ∧ loads (@events_of_run Sample.P Sample.D Sample.synthetic Sample.task0)
    = ["yolov8m.pt"].
Proof.
  assert (update (param Sample.task0) = true ∨ model Sample.task0 = None)
    as Hl by (right; reflexivity).
  split; [exact Hl |].
  destruct (@reload_selects_device_and_weights Sample.P Sample.D
              Sample.synthetic Sample.task0 Hl)
    as (_ & Hcpu & _ & _ & Hname & _).
  split.
  - apply Hcpu. reflexivity.
  - apply Hname. reflexivity.
Defined.

(** * Further facts about the parameter object *)

Section ParamMore.
Context `{Platform}.

Implicit Types (m : gmap string string) (p : InferYoloV8Param).

(** Closes a case of [set_values] raising part-way through. *)
Ltac partial_case p :=
  intros _; destruct p as [? ? ? ? ? ? ?]; unfold str_of_str; simpl;
  split_and!; try done; intros; simplify_eq; first [reflexivity | congruence].

(** X1. [set_values] is not atomic.  When it raises, the dirty flag and
    the weight-file path are as before, but the fields assigned before
    the failing line keep their new values: the model name is the
    mapping's whenever the mapping has one, the GPU flag is the
    converted one whenever the failure comes after it; the object is
    untouched only when the very first subscript fails. *)
Theorem set_values_partial_update m p :
  is_Some (raised (set_values m p)) →
  let p' := state_after (set_values m p) in
  update p' = update p
  ∧ model_weight_file p' = model_weight_file p
  ∧ (m !! "model_name" = None → p' = p)
  ∧ (∀ v, m !! "model_name" = Some v → model_name p' = v)
  ∧ (∀ v s b, m !! "model_name" = Some v → m !! "cuda" = Some s →
              strtobool s = Some b → cuda p' = b).
Proof.
  unfold set_values, getitem, py_strtobool, py_int, py_float.
  py_unfold. unfold raised, state_after. simpl.
  destruct (m !! "model_name") as [v1|] eqn:Ev1; simpl;
    [| partial_case p].
  destruct (m !! "cuda") as [s2|] eqn:Es2; simpl;
    [| partial_case p].
  destruct (strtobool s2) as [b|] eqn:Eb; simpl;
    [| partial_case p].
  destruct (m !! "input_size") as [s3|] eqn:Es3; simpl;
    [| partial_case p].
  destruct (int_of_str s3) as [n|] eqn:En; simpl;
    [| partial_case p].
  destruct (m !! "conf_thres") as [s4|] eqn:Es4; simpl;
    [| partial_case p].
  destruct (float_of_str s4) as [x|] eqn:Ex; simpl;
    [| partial_case p].
  destruct (m !! "iou_thres") as [s5|] eqn:Es5; simpl;
    [| partial_case p].
  destruct (float_of_str s5) as [y|] eqn:Ey; simpl;
    [| partial_case p].
  destruct (m !! "model_weight_file") as [v6|] eqn:Ev6; simpl;
    [| partial_case p].
  by intros [? ?].
Qed.

(** X2. [get_values] never raises and leaves the object as it was; the
    dictionary it returns has exactly the seven exchanged keys, whatever
    the object holds. *)
Theorem get_values_keys p :
  ∃ d, get_values p = (p, inr d)
       ∧ dom d = list_to_set exchanged_keys
       ∧ size d = 7%nat.
Proof.
  exists (values_of p). split; [done |].
  assert (dom (values_of p) = list_to_set exchanged_keys) as Hdom.
  { unfold values_of, exchanged_keys. rewrite !dom_insert_L, dom_empty_L.
    by_evaluation. }
  split; [done |].
  rewrite <- size_dom, Hdom. by_evaluation.
Qed.

(** X3. Reading back what [get_values] wrote.  When the texts printed
    for the GPU flag, the input size and the two thresholds of an
    object convert back to the values they were printed from,
    [set_values] on the dictionary of that object returns and makes any
    object equal to it, dirty flag set. *)
Theorem set_values_of_get_values p q :
  strtobool (str_of_bool (cuda p)) = Some (cuda p) →
  int_of_str (str_of_int (input_size p)) = Some (input_size p) →
  float_of_str (str_of_float (conf_thres p)) = Some (conf_thres p) →
  float_of_str (str_of_float (iou_thres p)) = Some (iou_thres p) →
  set_values (values_of p) q = (set_update true p, inr tt).
Proof.
  intros Hb Hn Hx Hy.
  rewrite (set_values_accepts (values_of p) q (model_name p) (cuda p)
             (input_size p) (conf_thres p) (iou_thres p)
             (model_weight_file p)); [done |].
  unfold accepts, values_of, str_of_str. split_and!.
  - by simplify_map_eq.
  - exists (str_of_bool (cuda p)). by simplify_map_eq.
  - exists (str_of_int (input_size p)). by simplify_map_eq.
  - exists (str_of_float (conf_thres p)). by simplify_map_eq.
  - exists (str_of_float (iou_thres p)). by simplify_map_eq.
  - by simplify_map_eq.
Qed.

(** X4. [set_values] twice with the same mapping is [set_values] once:
    same object, same outcome, whether it returns or raises.  When it
    returns, the object left does not depend on the object it started
    from. *)
Theorem set_values_idempotent m p :
  set_values m (state_after (set_values m p)) = set_values m p
  ∧ (returned (set_values m p) = Some tt →
     ∀ q, set_values m q = set_values m p).
Proof.
  unfold set_values, getitem, py_strtobool, py_int, py_float.
  py_unfold. unfold returned, state_after. simpl.
  destruct (m !! "model_name") as [v1|]; simpl; [| done].
  destruct (m !! "cuda") as [s2|]; simpl; [| done].
  destruct (strtobool s2) as [b|]; simpl; [| done].
  destruct (m !! "input_size") as [s3|]; simpl; [| done].
  destruct (int_of_str s3) as [n|]; simpl; [| done].
  destruct (m !! "conf_thres") as [s4|]; simpl; [| done].
  destruct (float_of_str s4) as [x|]; simpl; [| done].
  destruct (m !! "iou_thres") as [s5|]; simpl; [| done].
  destruct (float_of_str s5) as [y|]; simpl; [| done].
  destruct (m !! "model_weight_file") as [v6|]; simpl; [| done].
  done.
Qed.

(** X5. The two string entries pass through [set_values] and
    [get_values] verbatim: for every mapping [set_values] accepts, in
    canonical text or not and with any further keys, the dictionary
    read back has the mapping's model_name and model_weight_file
    entries, and "True" under update. *)
Theorem set_then_get_strings m p d :
  returned (set_then_get m p) = Some d →
  d !! "model_name" = m !! "model_name"
  ∧ d !! "model_weight_file" = m !! "model_weight_file"
  ∧ d !! "update" = Some "True"
  ∧ dom d = list_to_set exchanged_keys.
Proof.
  unfold set_then_get. py_unfold.
  destruct (set_values_cases m p)
    as [(v1 & b & n & x & y & v6 & Hacc & Heq) | (e & He & Hr & _)].
  - rewrite Heq. unfold get_values, returned; py_unfold; simpl.
    intros [= <-].
    destruct Hacc as (H1 & _ & _ & _ & _ & H6).
    unfold values_of, str_of_str; simpl. rewrite H1, H6.
    split_and!; [by simplify_map_eq .. |].
    unfold exchanged_keys. rewrite !dom_insert_L, dom_empty_L.
    by_evaluation.
  - unfold raised in He. unfold returned.
    destruct (set_values m p) as [s [e'|[]]]; simpl in *; done.
Qed.

End ParamMore.

(** * Further facts about the task *)

Section TaskMore.
Context `{Detector}.

Implicit Types (t : InferYoloV8) (src : image).

Lemma omap_add_object {A} (f : event → option A) ds :
  (∀ d, f (EvAddObject d) = None) → omap f (map EvAddObject ds) = [].
Proof.
  intros Hf. induction ds as [|d ds IH]; [done |]. simpl. by rewrite Hf.
Qed.

(** X6. A run calls [predict] at most once, on the image it was given,
    with the input size and the two thresholds the parameter object
    holds when the run starts. *)
Theorem run_predict_arguments src t m src' args :
  EvPredict m src' args ∈ events_of_run src t →
  src' = src
  ∧ arg_imgsz args = input_size (param t)
  ∧ arg_conf args = conf_thres (param t)
  ∧ arg_iou args = iou_thres (param t)
  ∧ predictions (events_of_run src t) = [m].
Proof.
  intros (Hm & -> & ->)%run_predict_call. split_and!; try done.
  rewrite events_of_run_trace, run_trace_split. unfold predictions.
  rewrite !omap_app. unfold after_load. rewrite Hm. simpl.
  assert (omap (λ e, match e with EvPredict m _ _ => Some m | _ => None end)
               (if must_load t then [EvYOLO (weights_of (param t))] else [])
          = []) as -> by by destruct (must_load t).
  simpl. f_equal. destruct (predict _ _ _); [|done]. simpl.
  rewrite omap_app, omap_add_object by done.
  by destruct (detections_of _).2.
Qed.

(** X7. When the detector answers, the run publishes the class names
    of the answer, in the answer's order, once and before it appends any
    detection; they are what the task's [classes] attribute and the
    host's name list hold afterwards. *)
Theorem run_publishes_names src t res :
  prediction src t = Some res →
  let t' := state_after (run src t) in
  classes t' = Some (names res).*2
  ∧ output_names t' = (names res).*2
  ∧ published (events_of_run src t) = [(names res).*2]
  ∧ ∃ pre post,
      events_of_run src t = pre ++ EvSetNames (names res).*2 :: post
      ∧ added pre = [].
Proof.
  intros Hpred. simpl. rewrite run_closed_form.
  unfold state_after, run_state; simpl. rewrite Hpred.
  split_and!; [done | done | |].
  - rewrite events_of_run_trace, run_trace_split. unfold published.
    rewrite !omap_app. unfold after_load, prediction in *.
    destruct (model_used t) as [m|]; [|done]. simpl in Hpred.
    rewrite Hpred. simpl.
    assert (omap (λ e, match e with EvSetNames l => Some l | _ => None end)
                 (if must_load t then [EvYOLO (weights_of (param t))] else [])
            = []) as -> by by destruct (must_load t).
    simpl. f_equal. rewrite omap_app, omap_add_object by done.
    by destruct (detections_of _).2.
  - unfold prediction in Hpred.
    destruct (model_used t) as [m|] eqn:Hm; [|done]. simpl in Hpred.
    exists ([EvBeginTaskRun; EvClearData]
            ++ (if must_load t then [EvYOLO (weights_of (param t))] else [])
            ++ [EvPredict m src (args_used t)]).
    eexists. split.
    + rewrite events_of_run_trace, run_trace_split. unfold after_load.
      rewrite Hm, Hpred. rewrite <- !app_assoc. simpl. reflexivity.
    + rewrite !added_app. by destruct (must_load t).
Qed.

Lemma run_counts src t :
  progress_steps (events_of_run src t)
  = match returned (run src t) with
    | Some _ => get_progress_steps
    | None => 0
    end
  ∧ task_ends (events_of_run src t)
    = match returned (run src t) with Some _ => 1 | None => 0 end.
Proof.
  rewrite events_of_run_trace, run_trace_split, run_closed_form.
  unfold progress_steps, task_ends, returned, run_result, after_load,
    get_progress_steps; simpl.
  rewrite !omap_app.
  assert (∀ A (f : event → option A),
            (∀ w, f (EvYOLO w) = None) →
            omap f (if must_load t
                    then [EvYOLO (weights_of (param t))] else []) = [])
    as Hload.
  { intros A f Hf. destruct (must_load t); simpl; by rewrite ?Hf. }
  rewrite !Hload by done. simpl.
  destruct (model_used t) as [m|]; simpl; [|done].
  destruct (predict _ _ _) as [res|]; simpl; [|done].
  rewrite !omap_app, !omap_add_object by done.
  by destruct (detections_of res).2.
Qed.

Lemma task_ends_app evs1 evs2 :
  task_ends (evs1 ++ evs2) = task_ends evs1 + task_ends evs2.
Proof. unfold task_ends. rewrite omap_app, length_app. lia. Qed.

Lemma task_ends_nonneg evs : 0 ≤ task_ends evs.
Proof. unfold task_ends. lia. Qed.

(** X8. The host's progress bar and the end of the run.  A run that
    returns has stepped the progress bar exactly [get_progress_steps]
    times (once) and ended the task run once, as its last two calls; a
    run that raises has done neither. *)
Theorem run_progress src t :
  progress_steps (events_of_run src t)
  = match returned (run src t) with
    | Some _ => get_progress_steps
    | None => 0
    end
  ∧ task_ends (events_of_run src t)
    = match returned (run src t) with Some _ => 1 | None => 0 end
  ∧ (returned (run src t) = Some tt ↔
     ∃ pre, events_of_run src t
            = pre ++ [EvEmitStepProgress; EvEndTaskRun]).
Proof.
  destruct (run_counts src t) as [Hsteps Hends].
  split_and!; [done | done |]. split.
  - intros Hret. rewrite events_of_run_trace, run_trace_split.
    rewrite run_closed_form in Hret.
    unfold returned, run_result in Hret. simpl in Hret.
    unfold after_load.
    destruct (model_used t) as [m|]; [|done].
    destruct (predict _ _ _) as [res|]; [|done].
    destruct (detections_of res).2; [done |].
    eexists. rewrite !app_comm_cons, !app_assoc. reflexivity.
  - intros [pre Hpre]. rewrite Hpre, task_ends_app in Hends.
    pose proof (task_ends_nonneg pre) as Hpos.
    destruct (returned (run src t)) as [[]|]; [done |].
    unfold task_ends in Hends at 2. simpl in Hends. lia.
Qed.

Lemma zip3_length {A B C} (a : list A) (b : list B) (c : list C) :
  length (zip3 a b c)
  = (length a `min` (length b `min` length c))%nat.
Proof. unfold zip3. rewrite !length_zip_with. lia. Qed.

Lemma zip3_classes {A B C} (P : C → Prop)
      (a : list A) (b : list B) (c : list C) :
  Forall P c → Forall (λ tr, P tr.2) (zip3 a b c).
Proof.
  unfold zip3. intros Hc. revert a b.
  induction Hc as [|x c Hx Hc IH]; intros a b.
  - destruct a, b; simpl; try constructor. all: by destruct (zip _ _).
  - destruct a as [|xa a], b as [|xb b]; simpl; try constructor.
    + done.
    + apply IH.
Qed.

(** X9. The loop stops with the shortest tensor.  When the detector
    answers with tensors of different lengths and the classes convert,
    the run returns and the output has as many detections as the
    shortest of the boxes, confidences and classes has entries. *)
Theorem run_zip_truncates src t res :
  prediction src t = Some res →
  Forall (λ cls, ∃ c, int_of_ts cls = inr c) (boxes_cls res) →
  returned (run src t) = Some tt
  ∧ length (output (state_after (run src t)))
    = (length (boxes_xyxy res)
       `min` (length (boxes_conf res) `min` length (boxes_cls res)))%nat.
Proof.
  intros Hpred Hall.
  pose proof (zip3_classes _ (boxes_xyxy res) (boxes_conf res) _ Hall)
    as Hzip.
  destruct (converted_all _ id Hzip) as (Hnone & Hlen & _).
  rewrite run_closed_form.
  unfold returned, state_after, run_state, run_result; simpl.
  rewrite Hpred. unfold prediction in Hpred.
  destruct (model_used t) as [m|]; [|done]. simpl in Hpred.
  rewrite Hpred. unfold detections_of, enumerate.
  change (imap (λ (i : nat) x, (Z.of_nat i, x))
               (zip3 (boxes_xyxy res) (boxes_conf res) (boxes_cls res)))
    with (imap (λ (i : nat) x, (Z.of_nat (id i), x))
               (zip3 (boxes_xyxy res) (boxes_conf res) (boxes_cls res))).
  rewrite Hnone, Hlen. split; [done |]. apply zip3_length.
Qed.

Lemma converted_indices
      (l : list (xyxy tscalar * tscalar * tscalar)) (f : nat → nat) :
  det_index <$> (converted (imap (λ i x, (Z.of_nat (f i), x)) l)).1
  = (λ i, Z.of_nat (f i))
    <$> seq 0 (length (converted (imap (λ i x, (Z.of_nat (f i), x)) l)).1).
Proof.
  revert f. induction l as [|[[box conf] cls] l IH]; intros f; [done |].
  simpl. destruct (int_of_ts cls) as [e|c]; [done |]. simpl.
  f_equal. etrans; [exact (IH (f ∘ S)) |].
  rewrite <- fmap_S_seq. by rewrite <- list_fmap_compose.
Qed.

Lemma converted_length_le
      (l : list (xyxy tscalar * tscalar * tscalar)) (f : nat → nat) :
  (length (converted (imap (λ i x, (Z.of_nat (f i), x)) l)).1
   ≤ length l)%nat.
Proof.
  revert f. induction l as [|[[box conf] cls] l IH]; intros f; [done |].
  simpl. destruct (int_of_ts cls); simpl; [lia |].
  apply le_n_S. exact (IH (f ∘ S)).
Qed.

(** X10. Indices never skip.  After every run, returned or raised, the
    detections of the output carry the indices 0, 1, 2, ... in order,
    and there are no more of them than the shortest tensor of the answer
    has entries. *)
Theorem run_output_indices src t :
  det_index <$> output (state_after (run src t))
  = Z.of_nat <$> seq 0 (length (output (state_after (run src t))))
  ∧ ∀ res, prediction src t = Some res →
           (length (output (state_after (run src t)))
            ≤ length (boxes_xyxy res)
              `min` (length (boxes_conf res) `min` length (boxes_cls res)))%nat.
Proof.
  rewrite run_closed_form. unfold state_after, run_state; simpl. split.
  - destruct (prediction src t) as [res|]; [|done].
    unfold detections_of, enumerate.
    exact (converted_indices _ id).
  - intros res ->. unfold detections_of, enumerate.
    rewrite <- zip3_length. exact (converted_length_le _ id).
Qed.

(** X11. A run changes nothing in the parameter object but the dirty
    flag, and the flag is still set afterwards only when it was set and
    the load raised. *)
Theorem run_param_frame src t :
  let p := param t in
  let p' := param (state_after (run src t)) in
  (model_name p', cuda p', input_size p', conf_thres p', iou_thres p',
   model_weight_file p')
  = (model_name p, cuda p, input_size p, conf_thres p, iou_thres p,
     model_weight_file p)
  ∧ (update p' = true ↔
     update p = true
     ∧ YOLO (if truthy (model_weight_file p) then model_weight_file p
             else model_name p +:+ ".pt") = None).
Proof.
  simpl. rewrite run_closed_form.
  unfold state_after, run_state, model_used, must_load, weights_of; simpl.
  destruct (update (param t)) eqn:Hu; simpl.
  - destruct (YOLO _) as [m|]; simpl; [|by rewrite Hu].
    split; [done |]. split; [done | by intros [_ ?]].
  - destruct (bool_decide (model t = None)); simpl.
    + destruct (YOLO _); simpl; rewrite ?Hu; (split; [done |]);
        (split; [done | by intros [? _]]).
    + rewrite Hu. split; [done |]. split; [done | by intros [? _]].
Qed.

(** X12. Without the dirty flag a loaded model stays.  When the flag is
    clear and a model is loaded, the run asks for no model and predicts
    with the one it has, on the device and precision it had, whatever
    model name and weight file the parameter object now holds. *)
Theorem run_keeps_model src t m :
  update (param t) = false →
  model t = Some m →
  let t' := state_after (run src t) in
  loads (events_of_run src t) = []
  ∧ predictions (events_of_run src t) = [m]
  ∧ model t' = Some m
  ∧ device t' = device t
  ∧ half t' = half t
  ∧ param t' = param t
  ∧ ∀ m' src' args, EvPredict m' src' args ∈ events_of_run src t →
      arg_half args = half t ∧ arg_device args = device t.
Proof.
  intros Hu Hm. simpl.
  assert (must_load t = false) as Hl.
  { unfold must_load. rewrite Hu, Hm. done. }
  assert (model_used t = Some m) as Hused.
  { unfold model_used. by rewrite Hl. }
  rewrite loads_run, Hl, run_closed_form.
  unfold state_after, run_state, args_used; simpl. rewrite Hl, Hused.
  split_and!; try done.
  - assert (EvPredict m src (args_used t) ∈ events_of_run src t) as Hin
      by by apply run_predict_call.
    by destruct (run_predict_arguments _ _ _ _ _ Hin) as (_ & _ & _ & _ & ?).
  - intros m' src' args (_ & _ & ->)%run_predict_call.
    unfold args_used; simpl. by rewrite Hl.
Qed.

(** X13. A load that raises is tried again.  When the run has to load
    and the detector library raises on the weights, the run raises that
    error without predicting; the output is empty, the model and the
    dirty flag are as before, though device and precision have been
    set; and the next run asks for the same weights again. *)
Theorem run_failed_load src t :
  update (param t) = true ∨ model t = None →
  YOLO (weights_of (param t)) = None →
  let t' := state_after (run src t) in
  raised (run src t) = Some (DetectorError (weights_of (param t)))
  ∧ output t' = []
  ∧ predictions (events_of_run src t) = []
  ∧ model t' = model t
  ∧ param t' = param t
  ∧ device t' = (if cuda (param t) then Cuda else Cpu)
  ∧ half t' = cuda (param t)
  ∧ ∀ src', loads (events_of_run src' t') = [weights_of (param t)].
Proof.
  intros Hl%must_load_iff Hw. simpl.
  assert (model_used t = None) as Hused.
  { unfold model_used. by rewrite Hl. }
  assert (must_load (state_after (run src t)) = true
          ∧ param (state_after (run src t)) = param t) as [Hl' Hp'].
  { rewrite run_closed_form. unfold state_after, run_state; simpl.
    rewrite Hl. split; [|by rewrite Hused].
    unfold must_load in *; simpl. by rewrite Hused. }
  split_and!.
  - by apply run_without_model.
  - rewrite run_closed_form. unfold state_after, run_state, prediction; simpl.
    by rewrite Hused.
  - rewrite events_of_run_trace, run_trace_split, Hl. unfold after_load.
    by rewrite Hused.
  - rewrite run_closed_form. unfold state_after, run_state; simpl.
    by rewrite Hused.
  - done.
  - rewrite run_closed_form. unfold state_after, run_state, args_used; simpl.
    by rewrite Hl.
  - rewrite run_closed_form. unfold state_after, run_state, args_used; simpl.
    by rewrite Hl.
  - intros src'. by rewrite loads_run, Hl', Hp'.
Qed.

(** X14. A task just constructed loads in its first run, whatever its
    dirty flag: the default preset's weights when it was constructed
    without parameters, the weights named by the parameters it was
    given otherwise. *)
Theorem first_run_loads src :
  loads (events_of_run src (InferYoloV8_init None)) = ["yolov8m.pt"]
  ∧ ∀ p, loads (events_of_run src (InferYoloV8_init (Some p)))
         = [if truthy (model_weight_file p) then model_weight_file p
            else model_name p +:+ ".pt"].
Proof.
  assert (∀ op, must_load (InferYoloV8_init op) = true) as Hl.
  { intros op. apply must_load_iff. by right. }
  split; [| intros p]; by rewrite loads_run, Hl.
Qed.

(** X15. A host-driven update always reloads.  After [set_values]
    returned on the task's parameter object, the next run loads, once
    and before predicting, the weights the mapping names: its
    model_weight_file entry when not empty, its model_name entry
    followed by ".pt" otherwise, even if the mapping holds the values
    the object already had. *)
Theorem set_values_then_run m t src :
  returned (set_values m (param t)) = Some tt →
  let t' := set_param (state_after (set_values m (param t))) t in
  ∃ name file,
    m !! "model_name" = Some name
    ∧ m !! "model_weight_file" = Some file
    ∧ loads (events_of_run src t')
      = [if truthy file then file else name +:+ ".pt"].
Proof.
  intros Hret. simpl.
  destruct (set_values_cases m (param t))
    as [(v1 & b & n & x & y & v6 & Hacc & Heq) | (e & _ & Hr & _)];
    [| by rewrite Hr in Hret].
  exists v1, v6. destruct Hacc as (H1 & _ & _ & _ & _ & H6).
  split_and!; [done | done |].
  rewrite loads_run, Heq. unfold must_load, weights_of, state_after. simpl.
  done.
Qed.

(** X16. A custom weight file wins over the widget's preset.  The
    apply action cannot change the weight-file path; so when the bound
    parameter object has a non-empty path, the run that follows the
    apply reloads from that path, whatever preset the widget shows. *)
Theorem apply_with_weight_file (w : InferYoloV8Widget) t src :
  model_weight_file (parameters w) ≠ "" →
  let t' := set_param (parameters (state_after (on_apply w))) t in
  loads (events_of_run src t') = [model_weight_file (parameters w)]
  ∧ model_name (param t') = combo_model w.
Proof.
  intros Hfile. simpl. rewrite loads_run.
  destruct w as [p ? ? ? ? ? ?]. unfold must_load, weights_of. simpl in *.
  by destruct (model_weight_file p).
Qed.

End TaskMore.

(** * Further facts about the widget *)

Section WidgetMore.
Context `{Gui}.

Implicit Types (w : InferYoloV8Widget) (p : InferYoloV8Param).

(** X17. Applying twice without touching a control changes nothing
    more in the parameter object; the host is signalled each time, with
    the same parameters. *)
Theorem on_apply_twice w :
  let w1 := state_after (on_apply w) in
  let w2 := state_after (on_apply w1) in
  parameters w2 = parameters w1
  ∧ applied w2 = applied w ++ [parameters w1; parameters w1].
Proof.
  destruct w as [p ? ? ? ? ? ?]. simpl. split; [done |].
  by rewrite <- app_assoc.
Qed.

(** X18. The GPU flag is masked by the machine.  When a check box
    shows the state it was built with, building the widget on a
    parameter object and applying stores the GPU flag only if CUDA is
    available: on a machine without CUDA the flag is cleared whatever
    the object held, and the check box cannot be changed. *)
Theorem open_and_apply_cuda (param : option InferYoloV8Param) :
  (∀ b, append_check b = b) →
  let p := match param with None => InferYoloV8Param_init | Some p => p end in
  cuda (open_and_apply param) = cuda p && cuda_is_available
  ∧ check_cuda_enabled (InferYoloV8Widget_init param) = cuda_is_available
  ∧ (cuda_is_available = false → cuda (open_and_apply param) = false)
  ∧ model_weight_file (open_and_apply param) = model_weight_file p
  ∧ update (open_and_apply param) = true.
Proof.
  intros Hcheck. unfold open_and_apply, InferYoloV8Widget_init. simpl.
  rewrite Hcheck. split_and!; try done.
  intros ->. apply andb_false_r.
Qed.

(** X19. Opening and applying is harmless when the controls can show
    the values.  When the combo lists the object's model name, the spin
    boxes show its input size and thresholds unchanged, and the check
    box its GPU flag (which holds when the flag is clear or CUDA is
    available), building the widget on the object and applying changes
    nothing in it but the dirty flag. *)
Theorem open_and_apply_faithful p :
  append_check (cuda p && cuda_is_available) = cuda p →
  combo_current_text combo_model_items (model_name p) = model_name p →
  append_spin (input_size p) = input_size p →
  append_double_spin (conf_thres p) = conf_thres p →
  append_double_spin (iou_thres p) = iou_thres p →
  open_and_apply (Some p) = set_update true p.
Proof.
  intros Hc Hm Hs Hx Hy. unfold open_and_apply, InferYoloV8Widget_init.
  destruct p as [? ? ? ? ? ? ?]. simpl in *.
  by rewrite Hc, Hm, Hs, Hx, Hy.
Qed.

(** X20. The apply action forces a preset.  When the combo always
    shows one of its items, the model name after building the widget
    and applying is one of the five presets, whatever name the
    parameter object held: it is what the combo shows for that name. *)
Theorem open_and_apply_preset (param : option InferYoloV8Param) :
  (∀ text, combo_current_text combo_model_items text ∈ combo_model_items) →
  let p := match param with None => InferYoloV8Param_init | Some p => p end in
  model_name (open_and_apply param) ∈ combo_model_items
  ∧ model_name (open_and_apply param)
    = combo_current_text combo_model_items (model_name p).
Proof.
  intros Hcombo. unfold open_and_apply, InferYoloV8Widget_init. simpl.
  split; [apply Hcombo | done].
Qed.

End WidgetMore.

(** * What is raised *)

Section Raised.
Context `{Detector}.

Implicit Types (m : gmap string string) (p : InferYoloV8Param)
               (t : InferYoloV8) (src : image).

(** X21. What [set_values] raises tells what is wrong with the
    mapping: a [KeyError] names one of the six read keys, absent from
    the mapping; a [ValueError] carries the text of the GPU, input-size
    or threshold entry that does not convert.  Nothing else is raised. *)
Theorem set_values_exception m p e :
  raised (set_values m p) = Some e →
  (∃ k, e = KeyError k ∧ k ∈ read_keys ∧ m !! k = None)
  ∨ (∃ k s, e = ValueError s
            ∧ k ∈ ["cuda"; "input_size"; "conf_thres"; "iou_thres"]
            ∧ m !! k = Some s ∧ ¬ parsable k s).
Proof.
  unfold set_values, getitem, py_strtobool, py_int, py_float.
  py_unfold. unfold raised. simpl.
  destruct (m !! "model_name") as [v1|] eqn:H1; simpl;
    [| intros [= <-]; left; exists "model_name";
       split_and!; [done | set_solver | done]].
  destruct (m !! "cuda") as [s2|] eqn:H2; simpl;
    [| intros [= <-]; left; exists "cuda";
       split_and!; [done | set_solver | done]].
  destruct (strtobool s2) as [b|] eqn:C2; simpl;
    [| intros [= <-]; right; exists "cuda", s2;
       split_and!; [done | set_solver | done |];
       unfold parsable; simpl; rewrite C2; by intros [? ?]].
  destruct (m !! "input_size") as [s3|] eqn:H3; simpl;
    [| intros [= <-]; left; exists "input_size";
       split_and!; [done | set_solver | done]].
  destruct (int_of_str s3) as [n|] eqn:C3; simpl;
    [| intros [= <-]; right; exists "input_size", s3;
       split_and!; [done | set_solver | done |];
       unfold parsable; simpl; rewrite C3; by intros [? ?]].
  destruct (m !! "conf_thres") as [s4|] eqn:H4; simpl;
    [| intros [= <-]; left; exists "conf_thres";
       split_and!; [done | set_solver | done]].
  destruct (float_of_str s4) as [x|] eqn:C4; simpl;
    [| intros [= <-]; right; exists "conf_thres", s4;
       split_and!; [done | set_solver | done |];
       unfold parsable; simpl; rewrite C4; by intros [? ?]].
  destruct (m !! "iou_thres") as [s5|] eqn:H5; simpl;
    [| intros [= <-]; left; exists "iou_thres";
       split_and!; [done | set_solver | done]].
  destruct (float_of_str s5) as [y|] eqn:C5; simpl;
    [| intros [= <-]; right; exists "iou_thres", s5;
       split_and!; [done | set_solver | done |];
       unfold parsable; simpl; rewrite C5; by intros [? ?]].
  destruct (m !! "model_weight_file") as [v6|] eqn:H6; simpl;
    [| intros [= <-]; left; exists "model_weight_file";
       split_and!; [done | set_solver | done]].
  done.
Qed.

Lemma converted_error
      (l : list (xyxy tscalar * tscalar * tscalar)) (f : nat → nat) e :
  (converted (imap (λ i x, (Z.of_nat (f i), x)) l)).2 = Some e →
  ∃ tr, tr ∈ l ∧ int_of_ts tr.2 = inl e.
Proof.
  revert f. induction l as [|[[box conf] cls] l IH]; intros f; [done |].
  simpl. destruct (int_of_ts cls) as [e'|c] eqn:Hc; simpl.
  - intros [= ->]. exists (box, conf, cls). split; [left | done].
  - intros Hl. destruct (IH (f ∘ S) Hl) as (tr & Hin & Htr).
    exists tr. split; [by right | done].
Qed.

(** X22. A run raises only what the libraries raise: the detector
    library on the weights, when the run had to load; the detector
    library on the prediction; or [int] on one of the classes of the
    answer.  The task itself raises nothing, its model being set
    whenever it predicts. *)
Theorem run_exception src t e :
  raised (run src t) = Some e →
  (e = DetectorError (weights_of (param t))
   ∧ (update (param t) = true ∨ model t = None)
   ∧ YOLO (weights_of (param t)) = None)
  ∨ (e = DetectorError "predict"
     ∧ ∃ mdl, model_used t = Some mdl
              ∧ predict mdl src (args_used t) = None)
  ∨ (∃ res cls, prediction src t = Some res
                ∧ cls ∈ boxes_cls res ∧ int_of_ts cls = inl e).
Proof.
  rewrite run_closed_form. unfold raised, run_result, prediction. simpl.
  destruct (model_used t) as [mdl|] eqn:Hm; simpl.
  - destruct (predict mdl src (args_used t)) as [res|] eqn:Hp.
    + destruct (detections_of res).2 as [e'|] eqn:He; [|done].
      intros [= ->]. right. right.
      unfold detections_of, enumerate in He.
      destruct (converted_error _ id _ He) as (tr & Hin & Htr).
      exists res, tr.2. split_and!; [done | | done].
      assert (Forall (λ tr, tr.2 ∈ boxes_cls res)
                     (zip3 (boxes_xyxy res) (boxes_conf res)
                           (boxes_cls res))) as Hall.
      { apply (zip3_classes (λ c, c ∈ boxes_cls res)).
        by apply Forall_forall. }
      rewrite Forall_forall in Hall. by apply Hall.
    + intros [= <-]. right. left. eauto.
  - unfold model_used in Hm. destruct (must_load t) eqn:Hl.
    + intros [= <-]. left. split_and!; [done | by apply must_load_iff | done].
    + destruct (must_load_false t Hl) as [_ [mdl Hm']]. congruence.
Qed.

End Raised.

(** * The further sample inputs *)

(** [set_values] stopping at the GPU entry: the model name is already
    replaced. *)
Lemma set_values_partial_update_witness :
  is_Some (raised (@set_values Sample.P Cases.bad_cuda Sample.fresh))
  ∧ model_name (state_after (@set_values Sample.P Cases.bad_cuda
                               Sample.fresh)) = "yolov8x"
  ∧ update (state_after (@set_values Sample.P Cases.bad_cuda Sample.fresh))
    = update Sample.fresh.
Proof.
  assert (is_Some (raised (@set_values Sample.P Cases.bad_cuda
                             Sample.fresh))) as Hr
    by (eexists; vm_compute; reflexivity).
  split; [exact Hr |].
  destruct (@set_values_partial_update Sample.P Cases.bad_cuda Sample.fresh
              Hr) as (Hu & _ & _ & Hname & _).
  split; [| exact Hu].
  apply Hname. by vm_compute.
Defined.

(** The dictionary of a fresh object reads back as that object. *)
Lemma set_values_of_get_values_witness :
  @set_values Sample.P (@values_of Sample.P Sample.fresh) Cases.tuned
  = (@set_update Sample.P true Sample.fresh, inr tt).
Proof.
  apply (@set_values_of_get_values Sample.P Sample.fresh Cases.tuned);
    vm_compute; reflexivity.
Defined.

(** On the dictionary of a fresh object [set_values] returns, and then
    starts from any object alike. *)
Lemma set_values_idempotent_witness :
  returned (@set_values Sample.P Sample.defaults Sample.fresh) = Some tt
  ∧ @set_values Sample.P Sample.defaults Cases.tuned
    = @set_values Sample.P Sample.defaults Sample.fresh.
Proof.
  assert (returned (@set_values Sample.P Sample.defaults Sample.fresh)
          = Some tt) as Hret by (vm_compute; reflexivity).
  split; [exact Hret |].
  exact (proj2 (@set_values_idempotent Sample.P Sample.defaults
                  Sample.fresh) Hret Cases.tuned).
Defined.

(** A loosely written mapping: the two strings come back as written. *)
Lemma set_then_get_strings_witness :
  returned (@set_then_get Sample.P Sample.loose Sample.fresh)
  = Some (<["update" := "True"]> Sample.defaults)
  ∧ (<["update" := "True"]> Sample.defaults : gmap string string)
      !! "model_name" = Sample.loose !! "model_name".
Proof.
  assert (returned (@set_then_get Sample.P Sample.loose Sample.fresh)
          = Some (<["update" := "True"]> Sample.defaults)) as Hret
    by by_evaluation.
  split; [exact Hret |].
  exact (proj1 (@set_then_get_strings Sample.P Sample.loose Sample.fresh
                  _ Hret)).
Defined.

(** The one prediction of a new task's first run. *)
Lemma run_predict_arguments_witness :
  @EvPredict Sample.P Sample.D "yolov8m.pt" Sample.synthetic
             (@args_used Sample.P Sample.D Sample.task0)
    ∈ @events_of_run Sample.P Sample.D Sample.synthetic Sample.task0
  ∧ arg_imgsz (@args_used Sample.P Sample.D Sample.task0) = 640.
Proof.
  assert (@EvPredict Sample.P Sample.D "yolov8m.pt" Sample.synthetic
                     (@args_used Sample.P Sample.D Sample.task0)
            ∈ @events_of_run Sample.P Sample.D Sample.synthetic
                Sample.task0) as Hin.
  { apply run_predict_call. split_and!; [| reflexivity | reflexivity].
    vm_compute; reflexivity. }
  split; [exact Hin |].
  destruct (@run_predict_arguments Sample.P Sample.D _ _ _ _ _ Hin)
    as (_ & Hsz & _).
  exact Hsz.
Defined.

(** The names published for the stub detector's answer. *)
Lemma run_publishes_names_witness :
  @prediction Sample.P Sample.D Sample.synthetic Sample.task0
  = Some Sample.synthetic
  ∧ output_names (state_after (@run Sample.P Sample.D Sample.synthetic
                                    Sample.task0))
    = (names Sample.synthetic).*2.
Proof.
  assert (@prediction Sample.P Sample.D Sample.synthetic Sample.task0
          = Some Sample.synthetic) as Hpred by (vm_compute; reflexivity).
  split; [exact Hpred |].
  destruct (@run_publishes_names Sample.P Sample.D Sample.synthetic
              Sample.task0 Sample.synthetic Hpred) as (_ & Hnames & _).
  exact Hnames.
Defined.

(** Three boxes, two confidences, four classes: two detections. *)
Lemma run_zip_truncates_witness :
  @prediction Sample.P Sample.D Cases.ragged Sample.task0
  = Some Cases.ragged
  ∧ length (output (state_after (@run Sample.P Sample.D Cases.ragged
                                      Sample.task0))) = 2%nat.
Proof.
  assert (@prediction Sample.P Sample.D Cases.ragged Sample.task0
          = Some Cases.ragged) as Hpred by (vm_compute; reflexivity).
  assert (Forall (λ cls, ∃ c, @int_of_ts Sample.P Sample.D cls = inr c)
                 (boxes_cls Cases.ragged)) as Hall.
  { unfold Cases.ragged; simpl.
    repeat constructor; eexists; vm_compute; reflexivity. }
  split; [exact Hpred |].
  destruct (@run_zip_truncates Sample.P Sample.D Cases.ragged Sample.task0
              Cases.ragged Hpred Hall) as (_ & Hlen).
  exact Hlen.
Defined.

(** The indices of the stub detector's two detections. *)
Lemma run_output_indices_witness :
  @prediction Sample.P Sample.D Cases.ragged Sample.task0
  = Some Cases.ragged
  ∧ (length (output (state_after (@run Sample.P Sample.D Cases.ragged
                                       Sample.task0))) ≤ 3 `min` (2 `min` 4))%nat.
Proof.
  assert (@prediction Sample.P Sample.D Cases.ragged Sample.task0
          = Some Cases.ragged) as Hpred by (vm_compute; reflexivity).
  split; [exact Hpred |].
  exact (proj2 (@run_output_indices Sample.P Sample.D Cases.ragged
                  Sample.task0) Cases.ragged Hpred).
Defined.

(** Another preset named, flag clear: the loaded model is used. *)
Lemma run_keeps_model_witness :
  update (param Cases.task1_stale) = false
  ∧ model_name (param Cases.task1_stale) = "yolov8n"
  ∧ predictions (@events_of_run Sample.P Sample.D Sample.synthetic
                   Cases.task1_stale) = ["yolov8m.pt"].
Proof.
  assert (update (param Cases.task1_stale) = false) as Hu
    by (vm_compute; reflexivity).
  assert (model Cases.task1_stale = Some "yolov8m.pt") as Hm
    by (vm_compute; reflexivity).
  split; [exact Hu |]. split; [vm_compute; reflexivity |].
  destruct (@run_keeps_model Sample.P Sample.D Sample.synthetic
              Cases.task1_stale "yolov8m.pt" Hu Hm) as (_ & Hpred & _).
  exact Hpred.
Defined.

(** A weight file the stub cannot load. *)
Lemma run_failed_load_witness :
  @YOLO Sample.P Sample.D
    (@weights_of Sample.P (param Sample.task_missing)) = None
  ∧ raised (@run Sample.P Sample.D Sample.synthetic Sample.task_missing)
    = Some (DetectorError "weights.onnx").
Proof.
  assert (update (param Sample.task_missing) = true
          ∨ model Sample.task_missing = None) as Hl by (right; reflexivity).
  assert (@YOLO Sample.P Sample.D
            (@weights_of Sample.P (param Sample.task_missing))
          = None)
    as Hw by (vm_compute; reflexivity).
  split; [exact Hw |].
  destruct (@run_failed_load Sample.P Sample.D Sample.synthetic
              Sample.task_missing Hl Hw) as (Hr & _).
  exact Hr.
Defined.

(** The host sends the values the task already has: it reloads. *)
Lemma set_values_then_run_witness :
  returned (@set_values Sample.P Sample.defaults (param Sample.task1))
  = Some tt
  ∧ ∃ name file,
      Sample.defaults !! "model_name" = Some name
      ∧ Sample.defaults !! "model_weight_file" = Some file
      ∧ loads (@events_of_run Sample.P Sample.D Sample.synthetic
                 (@set_param Sample.P Sample.D
                    (state_after (@set_values Sample.P Sample.defaults
                                    (param Sample.task1)))
                    Sample.task1))
        = [if truthy file then file else name +:+ ".pt"].
Proof.
  assert (returned (@set_values Sample.P Sample.defaults
                      (param Sample.task1)) = Some tt) as Hret
    by (vm_compute; reflexivity).
  split; [exact Hret |].
  exact (@set_values_then_run Sample.P Sample.D Sample.defaults
           Sample.task1 Sample.synthetic Hret).
Defined.

(** A custom weight file and the preset "yolov8x" in the combo. *)
Lemma apply_with_weight_file_witness :
  model_weight_file (parameters Cases.custom_widget) ≠ ""
  ∧ loads (@events_of_run Sample.P Sample.D Sample.synthetic
             (@set_param Sample.P Sample.D
                (parameters (state_after (@on_apply Sample.P
                                            Cases.custom_widget)))
                Sample.task1))
    = ["custom.pt"].
Proof.
  assert (model_weight_file (parameters Cases.custom_widget) ≠ "") as Hf
    by (vm_compute; discriminate).
  split; [exact Hf |].
  exact (proj1 (@apply_with_weight_file Sample.P Sample.D
                  Cases.custom_widget Sample.task1 Sample.synthetic Hf)).
Defined.

(** On a machine without CUDA the flag is cleared. *)
Lemma open_and_apply_cuda_witness :
  (∀ b, @append_check Sample.P Cases.G b = b)
  ∧ cuda (@open_and_apply Sample.P Cases.G
            (Some (@set_cuda Sample.P true Cases.tuned))) = false.
Proof.
  assert (∀ b, @append_check Sample.P Cases.G b = b) as Hc
    by (intros b; reflexivity).
  split; [exact Hc |].
  destruct (@open_and_apply_cuda Sample.P Cases.G
              (Some (@set_cuda Sample.P true Cases.tuned)) Hc)
    as (_ & _ & Hoff & _).
  apply Hoff. reflexivity.
Defined.

(** Values the Qt controls show unchanged. *)
Lemma open_and_apply_faithful_witness :
  @open_and_apply Sample.P Cases.G (Some Cases.tuned)
  = @set_update Sample.P true Cases.tuned.
Proof.
  apply (@open_and_apply_faithful Sample.P Cases.G Cases.tuned);
    vm_compute; reflexivity.
Defined.

(** A model name outside the presets is replaced by the first preset. *)
Lemma open_and_apply_preset_witness :
  (∀ text, @combo_current_text Sample.P Cases.G combo_model_items text
           ∈ combo_model_items)
  ∧ model_name (@open_and_apply Sample.P Cases.G
                  (Some (@set_model_name Sample.P "yolov8m-seg"
                           Cases.tuned))) = "yolov8n".
Proof.
  assert (∀ text, @combo_current_text Sample.P Cases.G combo_model_items
                    text ∈ combo_model_items) as Hcombo.
  { intros text. simpl. unfold Qt.current_text. case_bool_decide; [done |].
    simpl. unfold combo_model_items. set_solver. }
  split; [exact Hcombo |].
  rewrite (proj2 (@open_and_apply_preset Sample.P Cases.G
                    (Some (@set_model_name Sample.P "yolov8m-seg"
                             Cases.tuned)) Hcombo)).
  vm_compute. reflexivity.
Defined.

(** The GPU entry "maybe". *)
Lemma set_values_exception_witness :
  raised (@set_values Sample.P Cases.bad_cuda Sample.fresh)
  = Some (ValueError "maybe")
  ∧ ((∃ k, ValueError "maybe" = KeyError k ∧ k ∈ read_keys
           ∧ Cases.bad_cuda !! k = None)
     ∨ (∃ k s, ValueError "maybe" = ValueError s
               ∧ k ∈ ["cuda"; "input_size"; "conf_thres"; "iou_thres"]
               ∧ Cases.bad_cuda !! k = Some s
               ∧ ¬ @parsable Sample.P k s)).
Proof.
  assert (raised (@set_values Sample.P Cases.bad_cuda Sample.fresh)
          = Some (ValueError "maybe")) as Hr by (vm_compute; reflexivity).
  split; [exact Hr |].
  exact (@set_values_exception Sample.P Cases.bad_cuda Sample.fresh _ Hr).
Defined.

(** The weight file the stub cannot load, again. *)
Lemma run_exception_witness :
  raised (@run Sample.P Sample.D Sample.synthetic Sample.task_missing)
  = Some (DetectorError "weights.onnx")
  ∧ ¬ ∃ res, @prediction Sample.P Sample.D Sample.synthetic
               Sample.task_missing = Some res.
Proof.
  assert (raised (@run Sample.P Sample.D Sample.synthetic
                    Sample.task_missing)
          = Some (DetectorError "weights.onnx")) as Hr
    by (vm_compute; reflexivity).
  split; [exact Hr |].
  destruct (@run_exception Sample.P Sample.D Sample.synthetic
              Sample.task_missing _ Hr)
    as [(_ & _ & Hw) | [(He & _) | (res & cls & Hp & _)]].
  - intros [res Hres]. unfold prediction, model_used in Hres.
    change (must_load Sample.task_missing) with true in Hres.
    rewrite Hw in Hres. discriminate Hres.
  - discriminate He.
  - vm_compute in Hp. discriminate Hp.
Defined.
